(** * Swiftbuy checkout agent: the flow store, the health check, the
    pre-form step filter and the form-fill read-back check.

    Shallow embedding of
      - backend/checkout-agent/flow_store.py
          (_domain_from_url, _flow_path, load_flow, save_flow,
           check_flow_health, record_failure)
      - backend/checkout-agent/checkout_agent.py
          (_filter_pre_form_steps, FORM_FILL_JS.verifyField).

    Python strings are modelled as Stdlib [string]: a character is a code
    point below 256 (Latin-1), and [str.lower()] is its Latin-1 case
    mapping; the NFKC check [_checknetloc] of [urlsplit] raises nothing on
    Latin-1 text, since no Latin-1 character other than [/?#@:] themselves
    normalises to one of them.  Python ints are [Z]; Python floats are IEEE binary64 numbers
    given by the Standard Library's [SpecFloat] (prec 53, emax 1024). *)

From Stdlib Require Import ZArith String Ascii List Bool Lia.
From Stdlib Require Import Floats.SpecFloat.
From stdpp Require Import base gmap strings list.

Import ListNotations.
Open Scope Z_scope.

(* ------------------------------------------------------------------ *)
(** ** Python string primitives *)

Module Py.

Definition code (c : ascii) : Z := Z.of_nat (nat_of_ascii c).

(** [c in s] for a one-character needle. *)
Fixpoint contains_char (c : ascii) (s : string) : bool :=
  match s with
  | EmptyString => false
  | String c' r => Ascii.eqb c c' || contains_char c r
  end.

(** [s.startswith(p)] *)
Definition startswith (p s : string) : bool := String.prefix p s.

(** [s[n:]] *)
Fixpoint drop (n : nat) (s : string) : string :=
  match n, s with
  | O, _ => s
  | S _, EmptyString => EmptyString
  | S n', String _ r => drop n' r
  end.

(** [s[:n]] *)
Fixpoint take (n : nat) (s : string) : string :=
  match n, s with
  | O, _ => EmptyString
  | S _, EmptyString => EmptyString
  | S n', String c r => String c (take n' r)
  end.

(** [s.replace(a, b)] for one-character [a] and [b]. *)
Fixpoint replace_char (a b : ascii) (s : string) : string :=
  match s with
  | EmptyString => EmptyString
  | String c r =>
      String (if Ascii.eqb c a then b else c) (replace_char a b r)
  end.

(** Remove every character satisfying [p]. *)
Fixpoint remove_chars (p : ascii -> bool) (s : string) : string :=
  match s with
  | EmptyString => EmptyString
  | String c r => if p c then remove_chars p r else String c (remove_chars p r)
  end.

(** [s.lstrip(chars)] given as a predicate. *)
Fixpoint lstrip (p : ascii -> bool) (s : string) : string :=
  match s with
  | EmptyString => EmptyString
  | String c r => if p c then lstrip p r else s
  end.

(** [s.find(c)] *)
Fixpoint find (c : ascii) (s : string) : option nat :=
  match s with
  | EmptyString => None
  | String c' r =>
      if Ascii.eqb c c' then Some O
      else match find c r with Some i => Some (S i) | None => None end
  end.

(** [s.partition(c)]: the part before the first [c], and the part after it
    when [c] occurs. *)
Fixpoint partition (c : ascii) (s : string) : string * option string :=
  match s with
  | EmptyString => (EmptyString, None)
  | String c' r =>
      if Ascii.eqb c c' then (EmptyString, Some r)
      else let '(b, a) := partition c r in (String c' b, a)
  end.

(** [s.rpartition(c)[2]]: the part after the last [c], or [s] itself. *)
Fixpoint rpartition_tail (c : ascii) (s : string) : string :=
  match s with
  | EmptyString => EmptyString
  | String c' r =>
      if contains_char c r then rpartition_tail c r
      else if Ascii.eqb c c' then r else s
  end.

(** [str.lower()] on Latin-1: [A-Z], [À-Ö] and [Ø-Þ] move down by 32. *)
Definition lower_char (c : ascii) : ascii :=
  let n := nat_of_ascii c in
  if ((65 <=? n)%nat && (n <=? 90)%nat)
     || ((192 <=? n)%nat && (n <=? 222)%nat && negb (n =? 215)%nat)
  then ascii_of_nat (n + 32) else c.

Fixpoint lower (s : string) : string :=
  match s with
  | EmptyString => EmptyString
  | String c r => String (lower_char c) (lower r)
  end.

(** [a < b] on Python strings: lexicographic by code point. *)
Fixpoint str_ltb (a b : string) : bool :=
  match a, b with
  | _, EmptyString => false
  | EmptyString, String _ _ => true
  | String x a', String y b' =>
      if (nat_of_ascii x <? nat_of_ascii y)%nat then true
      else if Ascii.eqb x y then str_ltb a' b'
      else false
  end.

(** [x or y] where [x] is an optional string (None and "" are falsy). *)
Definition or_str (x y : option string) : option string :=
  match x with
  | Some s => if String.eqb s "" then y else Some s
  | None => y
  end.

End Py.

(* ------------------------------------------------------------------ *)
(** ** urllib.parse: the hostname of [urlparse(url)] (Python 3.11) *)

Module UrlParse.
Import Py.

Definition is_c0_control_or_space (c : ascii) : bool :=
  (nat_of_ascii c <=? 32)%nat.

Definition is_unsafe_url_byte (c : ascii) : bool :=
  Ascii.eqb c "009"%char || Ascii.eqb c "013"%char || Ascii.eqb c "010"%char.

Definition is_ascii_alpha (c : ascii) : bool :=
  let n := nat_of_ascii c in
  ((65 <=? n)%nat && (n <=? 90)%nat) || ((97 <=? n)%nat && (n <=? 122)%nat).

Definition is_ascii_digit (c : ascii) : bool :=
  let n := nat_of_ascii c in (48 <=? n)%nat && (n <=? 57)%nat.

(** [c in scheme_chars] *)
Definition is_scheme_char (c : ascii) : bool :=
  is_ascii_alpha c || is_ascii_digit c
  || Ascii.eqb c "+" || Ascii.eqb c "-" || Ascii.eqb c ".".

Fixpoint all_chars (p : ascii -> bool) (s : string) : bool :=
  match s with
  | EmptyString => true
  | String c r => p c && all_chars p r
  end.

(** The scheme step of [urlsplit]: drop [scheme:] when the text before the
    first colon is a valid scheme. *)
Definition strip_scheme (url : string) : string :=
  match find ":" url with
  | Some i =>
      match url with
      | String c0 _ =>
          if (0 <? i)%nat && is_ascii_alpha c0
             && all_chars is_scheme_char (take i url)
          then drop (S i) url else url
      | EmptyString => url
      end
  | None => url
  end.

Definition is_netloc_delim (c : ascii) : bool :=
  Ascii.eqb c "/" || Ascii.eqb c "?" || Ascii.eqb c "#".

(** [_splitnetloc(url, 2)[0]]: up to the first of [/?#]. *)
Fixpoint netloc_prefix (s : string) : string :=
  match s with
  | EmptyString => EmptyString
  | String c r => if is_netloc_delim c then EmptyString else String c (netloc_prefix r)
  end.

(** [urlsplit(url).netloc] when [urlsplit] raises nothing (see
    [urlsplit_ok]). *)
Definition urlsplit_netloc (url0 : string) : string :=
  let url1 := remove_chars is_unsafe_url_byte (lstrip is_c0_control_or_space url0) in
  let url2 := strip_scheme url1 in
  if startswith "//" url2 then netloc_prefix (drop 2 url2) else "".

(** [_check_bracketed_netloc(netloc)]: [true] when it raises nothing;
    [chk] is [_check_bracketed_host] ([ipaddress] validation of the
    bracketed host), [true] when it raises nothing. *)
Definition check_bracketed_netloc (chk : string -> bool) (netloc : string) : bool :=
  let hostname_and_port := rpartition_tail "@" netloc in
  match partition "[" hostname_and_port with
  | (before_bracket, Some bracketed) =>
      String.eqb before_bracket ""
      && (let '(hostname, port) := partition "]" bracketed in
          match port with
          | Some p => String.eqb p "" || startswith ":" p
          | None => true
          end
          && chk hostname)
  | (_, None) => true
  end.

(** [urlsplit(url)] raises no [ValueError]: the netloc has both square
    brackets or neither, and a bracketed netloc passes
    [_check_bracketed_netloc]. *)
Definition urlsplit_ok (chk : string -> bool) (url : string) : bool :=
  let netloc := urlsplit_netloc url in
  let ob := contains_char "[" netloc in
  let cb := contains_char "]" netloc in
  if (ob && negb cb) || (cb && negb ob) then false
  else if ob && cb then check_bracketed_netloc chk netloc
  else true.

(** [_hostinfo[0]] *)
Definition hostinfo_hostname (netloc : string) : string :=
  let hostinfo := rpartition_tail "@" netloc in
  match partition "[" hostinfo with
  | (_, Some bracketed) => fst (partition "]" bracketed)
  | (_, None) => fst (partition ":" hostinfo)
  end.

(** The [hostname] property: lower-cased up to a [%] zone, [None] when
    empty. *)
Definition hostname (url : string) : option string :=
  let h := hostinfo_hostname (urlsplit_netloc url) in
  if String.eqb h "" then None
  else
    match partition "%" h with
    | (before, Some zone) => Some (String.append (lower before) (String "%" zone))
    | (before, None) => Some (lower before)
    end.

End UrlParse.

(* ------------------------------------------------------------------ *)
(** ** Domain keys and flow paths *)

(** [_domain_from_url] when [urlparse] raises nothing. *)
Definition _domain_from_url (url : string) : string :=
  let domain := match UrlParse.hostname url with Some h => h | None => "" end in
  if Py.startswith "www." domain then Py.drop 4 domain else domain.

(** [domain = _domain_from_url(domain_or_url) if '/' in domain_or_url
    else domain_or_url], shared by load/save/delete/record_failure, on an
    input where it raises nothing: the store operations below are modelled
    on that path ([domain_key_or_error] adds the [ValueError]). *)
Definition domain_key (domain_or_url : string) : string :=
  if Py.contains_char "/" domain_or_url then _domain_from_url domain_or_url
  else domain_or_url.

(** [_domain_from_url(url)] with its [ValueError]: [None] when [urlparse]
    raises ([chk] is [_check_bracketed_host], [true] when it raises
    nothing). *)
Definition _domain_from_url_or_error (chk : string -> bool) (url : string) : option string :=
  if UrlParse.urlsplit_ok chk url then Some (_domain_from_url url) else None.

(** The domain line of load/save/delete/record_failure, [None] when it
    raises [ValueError] (before the store is touched). *)
Definition domain_key_or_error (chk : string -> bool) (domain_or_url : string) : option string :=
  if Py.contains_char "/" domain_or_url then _domain_from_url_or_error chk domain_or_url
  else Some domain_or_url.

(** [_flow_path]: the file name stem [safe_domain] ([FLOWS_DIR] and the
    [.json] suffix are the same for every domain). *)
Definition _flow_path (domain : string) : string :=
  Py.replace_char ":" "_" (Py.replace_char "/" "_" domain).

(* ------------------------------------------------------------------ *)
(** ** Navigation steps and flow records *)

(** A navigation step dict; a field is [None] when the key is absent (or
    null). *)
Record NavStep := mkNavStep {
  step_action : option string;
  step_text : option string;
  step_selector : option string;
  step_purpose : option string;
  step_url_at : option string;
}.

(** A flow dict as [save_flow] writes it and [record_failure] extends it:
    one field per key of the schema, [None] when the key is absent (or
    null). *)
Record Flow := mkFlow {
  domain : option string;
  platform : option string;
  checkout_url_pattern : option string;
  navigation_steps : option (list NavStep);
  form_selectors : option (gmap string string);
  payment_selectors : option (gmap string string);
  success_count : option Z;
  failure_count : option Z;
  consecutive_failures : option Z;
  last_success : option string;
  last_url : option string;
  last_failure : option string;
  last_error : option string;
}.

(** [existing = {}] *)
Definition empty_flow : Flow :=
  mkFlow None None None None None None None None None None None None None.

(** The flows directory: file stem ([_flow_path domain]) to the flow stored
    in it.  Reads and writes of the directory are taken to succeed. *)
Abbreviation FlowDir := (gmap string Flow).

(** [save_flow(domain_or_url, form_selectors, payment_selectors,
    navigation_steps, checkout_url_pattern, platform, final_url)];
    [now] is [datetime.now(timezone.utc).isoformat()]. *)
Definition save_flow (dir : FlowDir) (domain_or_url : string)
    (arg_form_selectors : gmap string string)
    (arg_payment_selectors : option (gmap string string))
    (arg_navigation_steps : option (list NavStep))
    (arg_checkout_url_pattern arg_platform arg_final_url : option string)
    (now : string) : FlowDir :=
  let dom := domain_key domain_or_url in
  let path := _flow_path dom in
  let existing := default empty_flow (dir !! path) in
  (* new wins on conflict: {**old, **new} *)
  let merged_form := arg_form_selectors ∪ default ∅ (form_selectors existing) in
  let merged_payment :=
    default ∅ arg_payment_selectors ∪ default ∅ (payment_selectors existing) in
  let nav_steps :=
    match arg_navigation_steps with
    | Some steps => steps
    | None => default [] (navigation_steps existing)
    end in
  let flow := {|
    domain := Some dom;
    platform := Py.or_str arg_platform (Some (default "unknown" (platform existing)));
    checkout_url_pattern := Py.or_str arg_checkout_url_pattern (checkout_url_pattern existing);
    navigation_steps := Some nav_steps;
    form_selectors := Some merged_form;
    payment_selectors := Some merged_payment;
    success_count := Some (default 0 (success_count existing) + 1);
    failure_count := Some (default 0 (failure_count existing));
    consecutive_failures := Some 0;
    last_success := Some now;
    last_url := Py.or_str arg_final_url (last_url existing);
    last_failure := None;
    last_error := None;
  |} in
  <[path := flow]> dir.

(** [record_failure(domain_or_url, error)] *)
Definition record_failure (dir : FlowDir) (domain_or_url : string)
    (error : option string) (now : string) : FlowDir :=
  let path := _flow_path (domain_key domain_or_url) in
  match dir !! path with
  | None => dir
  | Some flow =>
      let err :=
        match error with
        | Some e => if String.eqb e "" then last_error flow else Some (Py.take 200 e)
        | None => last_error flow
        end in
      <[path := {|
        domain := domain flow;
        platform := platform flow;
        checkout_url_pattern := checkout_url_pattern flow;
        navigation_steps := navigation_steps flow;
        form_selectors := form_selectors flow;
        payment_selectors := payment_selectors flow;
        success_count := success_count flow;
        failure_count := Some (default 0 (failure_count flow) + 1);
        consecutive_failures := Some (default 0 (consecutive_failures flow) + 1);
        last_success := last_success flow;
        last_url := last_url flow;
        last_failure := Some now;
        last_error := err;
      |}]> dir
  end.

(* ------------------------------------------------------------------ *)
(** ** Python floats (binary64) *)

Module PyFloat.

Definition prec : Z := 53.
Definition emax : Z := 1024.

(** [float(n)] for an int [n] (round half to even). *)
Definition of_int (n : Z) : spec_float := binary_normalize prec emax n 0 false.

(** [a / b] on Python ints with [b > 0]: the correctly rounded quotient. *)
Definition int_truediv (a : Z) (b : positive) : spec_float :=
  match a with
  | Z0 => S754_zero false
  | Zpos m | Zneg m =>
      let '(mz, ez, lz) := SFdiv_core_binary prec emax (Zpos m) 0 (Zpos b) 0 in
      binary_round_aux prec emax (Z.ltb a 0) mz ez lz
  end.

Definition mul (x y : spec_float) : spec_float := SFmul prec emax x y.

(** [round(q / 2^k)] with ties to even, for [q >= 0] and [k > 0]. *)
Definition shift_round_half_even (q : Z) (k : positive) : Z :=
  let d := Z.shiftr q (Zpos k) in
  let r := q - Z.shiftl d (Zpos k) in
  match Z.compare (2 * r) (Z.shiftl 1 (Zpos k)) with
  | Lt => d
  | Gt => d + 1
  | Eq => if Z.even d then d else d + 1
  end.

(** [round(x, 1)] on a float: the value rounded half to even at one decimal
    (as the correctly rounded decimal conversion does), then converted back
    to the nearest float. *)
Definition round1 (x : spec_float) : spec_float :=
  match x with
  | S754_finite s m e =>
      let n :=
        match e with
        | Zneg k => shift_round_half_even (10 * Zpos m) k
        | _ => 10 * Zpos m * 2 ^ e
        end in
      if Z.eqb n 0 then S754_zero s
      else int_truediv (if s then - n else n) 10
  | _ => x
  end.

End PyFloat.

(** A Python number as the health check produces it: [0] (an int) or a
    float. *)
Inductive PyNum :=
| NInt (z : Z)
| NFloat (f : spec_float).

(** [x < k] for a small int literal [k]. *)
Definition num_ltb (x : PyNum) (k : Z) : bool :=
  match x with
  | NInt z => Z.ltb z k
  | NFloat f => SFltb f (PyFloat.of_int k)
  end.

(** [round(x, 1)] *)
Definition num_round1 (x : PyNum) : PyNum :=
  match x with
  | NInt z => NInt z
  | NFloat f => NFloat (PyFloat.round1 f)
  end.

(* ------------------------------------------------------------------ *)
(** ** Health monitor: [check_flow_health] *)

Record Health := mkHealth {
  h_status : string;
  h_nav_steps : nat;
  h_form_selectors : nat;
  h_payment_selectors : nat;
  h_success_count : Z;
  h_failure_count : Z;
  h_success_rate : PyNum;
  h_needs_relearn : bool;
  h_consecutive_failures : Z;
}.

(** [total_runs = success_count + failure_count] *)
Definition total_runs (flow : Flow) : Z :=
  default 0 (success_count flow) + default 0 (failure_count flow).

(** [success_rate] before rounding:
    [(success_count / total_runs * 100) if total_runs > 0 else 0]. *)
Definition raw_success_rate (flow : Flow) : PyNum :=
  match total_runs flow with
  | Zpos t =>
      NFloat (PyFloat.mul (PyFloat.int_truediv (default 0 (success_count flow)) t)
                          (PyFloat.of_int 100))
  | _ => NInt 0
  end.

(** The status from the thresholds (before the consecutive-failure
    override). *)
Definition threshold_status (flow : Flow) : string :=
  let s := default 0 (success_count flow) in
  let f := default 0 (failure_count flow) in
  let t := total_runs flow in
  let r := raw_success_rate flow in
  let status := "healthy"%string in
  let status := if (3 <=? t) && num_ltb r 50 then "degraded"%string else status in
  let status := if (3 <=? t) && num_ltb r 20 then "broken"%string else status in
  let status := if (3 <=? f) && (s =? 0) then "broken"%string else status in
  status.

(** [if last_failure and last_success: if last_failure > last_success: ...] *)
Definition failure_after_success (flow : Flow) : bool :=
  match last_failure flow, last_success flow with
  | Some lf, Some ls =>
      negb (String.eqb lf "") && negb (String.eqb ls "") && Py.str_ltb ls lf
  | _, _ => false
  end.

Definition check_flow_health (flow : Flow) : Health :=
  let consecutive := default 0 (consecutive_failures flow) in
  let relearn_by_count := 2 <=? consecutive in
  {|
    h_status := if relearn_by_count then "needs_relearn"%string else threshold_status flow;
    h_nav_steps := length (default [] (navigation_steps flow));
    h_form_selectors := size (default ∅ (form_selectors flow));
    h_payment_selectors := size (default ∅ (payment_selectors flow));
    h_success_count := default 0 (success_count flow);
    h_failure_count := default 0 (failure_count flow);
    h_success_rate := num_round1 (raw_success_rate flow);
    h_needs_relearn := failure_after_success flow || relearn_by_count;
    h_consecutive_failures := consecutive;
  |}.

(* ------------------------------------------------------------------ *)
(** ** Replay boundary: [_filter_pre_form_steps] *)

(** [re.search(r'/checkout/.+', url_at)]: some position starts with
    [/checkout/] followed by a character other than a newline. *)
Fixpoint checkout_subpage_search (s : string) : bool :=
  match s with
  | EmptyString => false
  | String _ r =>
      (Py.startswith "/checkout/" s
       && match Py.drop 10 s with
          | String c _ => negb (Ascii.eqb c "010"%char)
          | EmptyString => false
          end)
      || checkout_subpage_search r
  end.

Fixpoint _filter_pre_form_steps (nav_steps : list NavStep) : list NavStep :=
  match nav_steps with
  | [] => []
  | step :: rest =>
      let action := default "" (step_action step) in
      let purpose := default "other" (step_purpose step) in
      let url_at := default "" (step_url_at step) in
      if String.eqb action "wait" then _filter_pre_form_steps rest
      else if String.eqb action "click"
              && (String.eqb purpose "continue" || String.eqb purpose "confirm")
              && checkout_subpage_search url_at
      then []
      else step :: _filter_pre_form_steps rest
  end.

(* ------------------------------------------------------------------ *)
(** ** Form fill read-back: [verifyField] of [FORM_FILL_JS] *)

Module Js.

(** The JavaScript white space and line terminators below U+0100
    (the set of [String.prototype.trim] and of [\s]). *)
Definition is_space (c : ascii) : bool :=
  let n := nat_of_ascii c in
  ((9 <=? n)%nat && (n <=? 13)%nat) || (n =? 32)%nat || (n =? 160)%nat.

Fixpoint rev_str (s : string) : string :=
  match s with
  | EmptyString => EmptyString
  | String c r => String.append (rev_str r) (String c EmptyString)
  end.

(** [s.trim()] *)
Definition trim (s : string) : string :=
  rev_str (Py.lstrip is_space (rev_str (Py.lstrip is_space s))).

(** [s.replace(/[\s\-\(\)]/g, '')] *)
Definition strip_phone_punct (s : string) : string :=
  Py.remove_chars
    (fun c => is_space c || Ascii.eqb c "-" || Ascii.eqb c "(" || Ascii.eqb c ")") s.

End Js.

(** [verifyField(el, expectedValue)] with [el.value] given as [value]. *)
Definition verifyField (value expectedValue : string) : bool :=
  let actual := Js.trim value in
  let expected := Js.trim expectedValue in
  if String.eqb expected "" then true
  else if String.eqb actual expected then true
  else if String.eqb (Js.strip_phone_punct actual) (Js.strip_phone_punct expected) then true
  else false.

(* ------------------------------------------------------------------ *)
(** ** [load_flow] over the JSON contents of the flow file *)

Module LoadFlow.

Local Set Warnings "-register-all".

(** A JSON document as [json.load] returns it. *)
Inductive Json :=
| JNull
| JBool (b : bool)
| JInt (z : Z)
| JFloat (f : spec_float)
| JStr (s : string)
| JArr (l : list Json)
| JObj (kvs : list (string * Json)).

(** The exception classes met on the way. *)
Inductive PyExc :=
| JSONDecodeError
| OSError            (* IOError is OSError *)
| UnicodeDecodeError
| AttributeError
| TypeError.

Inductive PyResult (A : Type) :=
| Ok (a : A)
| Raise (e : PyExc).
Arguments Ok {A} a.
Arguments Raise {A} e.

Definition bind {A B} (m : PyResult A) (k : A -> PyResult B) : PyResult B :=
  match m with
  | Ok a => k a
  | Raise e => Raise e
  end.

Local Notation "x <-- m ;; k" := (bind m (fun x => k))
  (at level 100, m at next level, right associativity).

(** A flow file: absent, or present with the outcome of
    [open(path, 'r')] followed by [json.load(f)] (the document, or the
    exception the reading or decoding raised). *)
Inductive FileState :=
| NoFile
| Present (outcome : PyResult Json).

(** A decoded object keeps the last value of a repeated key. *)
Fixpoint obj_get (kvs : list (string * Json)) (k : string) : option Json :=
  match kvs with
  | [] => None
  | (k', v) :: r =>
      match obj_get r k with
      | Some v' => Some v'
      | None => if String.eqb k k' then Some v else None
      end
  end.

(** [flow.get(k, d)]: only dicts have [.get]. *)
Definition dict_get (flow : Json) (k : string) (d : Json) : PyResult Json :=
  match flow with
  | JObj kvs => Ok (default d (obj_get kvs k))
  | _ => Raise AttributeError
  end.

(** [len(x)] *)
Definition py_len (x : Json) : PyResult nat :=
  match x with
  | JStr s => Ok (String.length s)
  | JArr l => Ok (length l)
  | JObj kvs => Ok (length (remove_dups (map fst kvs)))
  | _ => Raise TypeError
  end.

(** [except (json.JSONDecodeError, IOError)] *)
Definition caught (e : PyExc) : bool :=
  match e with
  | JSONDecodeError | OSError => true
  | _ => false
  end.

(** [load_flow(domain_or_url)] over the directory [fs] (file stem to file
    state). *)
Definition load_flow (fs : string -> FileState) (domain_or_url : string)
    : PyResult (option Json) :=
  let path := _flow_path (domain_key domain_or_url) in
  match fs path with
  | NoFile => Ok None
  | Present outcome =>
      let body :=
        flow <-- outcome ;;
        nav <-- dict_get flow "navigation_steps" (JArr []) ;;
        _nav_count <-- py_len nav ;;
        form <-- dict_get flow "form_selectors" (JObj []) ;;
        _form_count <-- py_len form ;;
        pay <-- dict_get flow "payment_selectors" (JObj []) ;;
        _pay_count <-- py_len pay ;;
        _successes <-- dict_get flow "success_count" (JInt 0) ;;
        Ok (Some flow) in
      match body with
      | Ok r => Ok r
      | Raise e => if caught e then Ok None else Raise e
      end
  end.

End LoadFlow.

(* ------------------------------------------------------------------ *)
(** ** Sequences of store operations on one domain *)

(** The arguments of one [save_flow] call. *)
Record SaveCall := mkSaveCall {
  sc_form : gmap string string;
  sc_payment : option (gmap string string);
  sc_nav : option (list NavStep);
  sc_pattern : option string;
  sc_platform : option string;
  sc_final_url : option string;
  sc_now : string;
}.

Definition apply_save (d : string) (dir : FlowDir) (c : SaveCall) : FlowDir :=
  save_flow dir d (sc_form c) (sc_payment c) (sc_nav c)
    (sc_pattern c) (sc_platform c) (sc_final_url c) (sc_now c).

Definition run_saves (dir : FlowDir) (d : string) (calls : list SaveCall) : FlowDir :=
  fold_left (apply_save d) calls dir.

(** A successful checkout ([save_flow]) or a failed one
    ([record_failure]). *)
Inductive Event :=
| ESave (c : SaveCall)
| EFail (error : option string) (now : string).

Definition step_event (d : string) (dir : FlowDir) (ev : Event) : FlowDir :=
  match ev with
  | ESave c => apply_save d dir c
  | EFail error now => record_failure dir d error now
  end.

Definition run_events (dir : FlowDir) (d : string) (evs : list Event) : FlowDir :=
  fold_left (step_event d) evs dir.

(* ------------------------------------------------------------------ *)
(** ** Vocabulary of the specification *)

(** The value of the most recent element that supplies one. *)
Fixpoint last_supplied {A} (xs : list (option A)) : option A :=
  match xs with
  | [] => None
  | x :: r =>
      match last_supplied r with
      | Some y => Some y
      | None => x
      end
  end.

Definition is_save (ev : Event) : bool :=
  match ev with ESave _ => true | EFail _ _ => false end.

Definition count_saves (evs : list Event) : nat :=
  length (filter (fun ev => is_save ev = true) evs).

Definition count_failures (evs : list Event) : nat :=
  length (filter (fun ev => is_save ev = false) evs).

(** The events from the first save on. *)
Fixpoint from_first_save (evs : list Event) : list Event :=
  match evs with
  | [] => []
  | ev :: r => if is_save ev then evs else from_first_save r
  end.

Fixpoint leading_failures (evs : list Event) : nat :=
  match evs with
  | [] => O
  | ev :: r => if is_save ev then O else S (leading_failures r)
  end.

(** The length of the run of failures ending the sequence. *)
Definition trailing_failures (evs : list Event) : nat :=
  leading_failures (rev evs).

Definition is_wait (step : NavStep) : bool :=
  String.eqb (default "" (step_action step)) "wait".

(** The stop condition of the pre-form filter, as the code tests it. *)
Definition is_replay_boundary (step : NavStep) : bool :=
  String.eqb (default "" (step_action step)) "click"
  && (String.eqb (default "other" (step_purpose step)) "continue"
      || String.eqb (default "other" (step_purpose step)) "confirm")
  && checkout_subpage_search (default "" (step_url_at step)).

Fixpoint take_while {A} (p : A -> bool) (xs : list A) : list A :=
  match xs with
  | [] => []
  | x :: r => if p x then x :: take_while p r else []
  end.

(** [s] strips one leading [www.]. *)
Definition strip_www (s : string) : string :=
  if Py.startswith "www." s then Py.drop 4 s else s.

(** A character that may appear in a plain host name of a URL: none of
    the URL delimiters, user-info, bracket, port and zone characters, and
    none of the bytes [urlsplit] removes. *)
Definition url_host_char (c : ascii) : bool :=
  negb (Py.contains_char c "/?#@[]:%") && negb (UrlParse.is_unsafe_url_byte c).

(* ------------------------------------------------------------------ *)
(** ** Concrete inputs *)

Definition click_step (purpose url : string) : NavStep :=
  mkNavStep (Some "click") (Some "Continue") None (Some purpose) (Some url).

Definition wait_step : NavStep :=
  mkNavStep (Some "wait") None None None None.

Definition flow_with_counts (s f c : Z) : Flow :=
  mkFlow (Some "example.com") (Some "unknown") None (Some []) (Some ∅) (Some ∅)
    (Some s) (Some f) (Some c) (Some "2026-02-17T12:00:00+00:00") None None None.

Definition plain_save (now : string) : SaveCall :=
  mkSaveCall ∅ None None None None None now.

(** A first save with form, payment and navigation data, then a save that
    overrides one form selector and supplies no steps. *)
Definition save_a : SaveCall :=
  mkSaveCall (<["email" := "#email"]> (<["city" := "#city"]> ∅))
    (Some (<["card_number" := "#cc"]> ∅))
    (Some [click_step "continue" "https://shop.nl/checkout/address"])
    None (Some "shopify") None "t1".

Definition save_b : SaveCall :=
  mkSaveCall (<["email" := "#mail2"]> ∅) None None None None None "t2".

(** A learned flow: steps, selectors and a clean record. *)
Definition learned_flow : Flow :=
  mkFlow (Some "shop.nl") (Some "shopify") None
    (Some [click_step "add_to_cart" "https://shop.nl/p"])
    (Some (<["email" := "#email"]> ∅)) (Some (<["card_number" := "#cc"]> ∅))
    (Some 3) (Some 0) (Some 0) (Some "t0") None None None.

(* ------------------------------------------------------------------ *)
(** ** More string primitives (Latin-1 case mapping, substrings) *)

Module PyStr.

(** [sub in s] *)
Fixpoint contains (sub s : string) : bool :=
  String.prefix sub s
  || match s with
     | EmptyString => false
     | String _ r => contains sub r
     end.

(** [s.endswith(suf)] *)
Definition endswith (suf s : string) : bool :=
  (String.length suf <=? String.length s)%nat
  && String.eqb (Py.drop (String.length s - String.length suf) s) suf.

(** [s.replace(old, '')] for a non-empty [old]: left to right, without
    overlaps. *)
Fixpoint remove_all_go (fuel : nat) (old s : string) : string :=
  match fuel with
  | O => s
  | S fuel' =>
      match s with
      | EmptyString => EmptyString
      | String c r =>
          if String.prefix old s
          then remove_all_go fuel' old (Py.drop (String.length old) s)
          else String c (remove_all_go fuel' old r)
      end
  end.

Definition remove_all (old s : string) : string :=
  remove_all_go (String.length s) old s.

(** [str.lower()] (and JavaScript's [toLowerCase]) on Latin-1. *)
Definition lower_char (c : ascii) : ascii :=
  let n := nat_of_ascii c in
  if ((65 <=? n)%nat && (n <=? 90)%nat)
     || ((192 <=? n)%nat && (n <=? 222)%nat && negb (n =? 215)%nat)
  then ascii_of_nat (n + 32) else c.

Fixpoint lower (s : string) : string :=
  match s with
  | EmptyString => EmptyString
  | String c r => String (lower_char c) (lower r)
  end.

(** [str.upper()] on Latin-1: [None] when the result leaves Latin-1
    (the upper case of U+00B5 and U+00FF); U+00DF becomes [SS]. *)
Fixpoint upper (s : string) : option string :=
  match s with
  | EmptyString => Some EmptyString
  | String c r =>
      match upper r with
      | None => None
      | Some r' =>
          let n := nat_of_ascii c in
          if ((97 <=? n)%nat && (n <=? 122)%nat)
             || ((224 <=? n)%nat && (n <=? 254)%nat && negb (n =? 247)%nat)
          then Some (String (ascii_of_nat (n - 32)) r')
          else if (n =? 223)%nat then Some (String "S" (String "S" r'))
          else if (n =? 181)%nat || (n =? 255)%nat then None
          else Some (String c r')
      end
  end.

(** [c.isspace()] on Latin-1. *)
Definition is_space (c : ascii) : bool :=
  let n := nat_of_ascii c in
  ((9 <=? n)%nat && (n <=? 13)%nat) || ((28 <=? n)%nat && (n <=? 32)%nat)
  || (n =? 133)%nat || (n =? 160)%nat.

(** The word at the start of [s] (possibly empty) and the words after
    it. *)
Fixpoint split_aux (s : string) : string * list string :=
  match s with
  | EmptyString => (EmptyString, [])
  | String c r =>
      let '(w, ws) := split_aux r in
      if is_space c then (EmptyString, if String.eqb w "" then ws else w :: ws)
      else (String c w, ws)
  end.

(** [s.split()] *)
Definition split (s : string) : list string :=
  let '(w, ws) := split_aux s in if String.eqb w "" then ws else w :: ws.

(** The double quote character. *)
Definition dq : string := String "034"%char EmptyString.

(** [x or ''] followed by a truth test: a non-empty string. *)
Definition truthy (x : option string) : bool :=
  match x with
  | Some s => negb (String.eqb s "")
  | None => false
  end.

(** [f"{x}"] of an optional string. *)
Definition fmt (x : option string) : string :=
  match x with
  | Some s => s
  | None => "None"
  end.

End PyStr.

(* ------------------------------------------------------------------ *)
(** ** [delete_flow] *)

(** [delete_flow(domain_or_url)]: the directory after the call and the
    returned bool. *)
Definition delete_flow (dir : FlowDir) (domain_or_url : string) : FlowDir * bool :=
  let path := _flow_path (domain_key domain_or_url) in
  match dir !! path with
  | Some _ => (delete path dir, true)
  | None => (dir, false)
  end.

(** [load_flow(domain_or_url)] on a directory whose files read and
    decode. *)
Definition stored_flow (dir : FlowDir) (domain_or_url : string) : option Flow :=
  dir !! _flow_path (domain_key domain_or_url).

(* ------------------------------------------------------------------ *)
(** ** [list_flows] *)

Module ListFlows.
Import LoadFlow.

Local Notation "x <-- m ;; k" := (bind m (fun x => k))
  (at level 100, m at next level, right associativity).

(** One entry of [list_flows]. *)
Record FlowSummary := mkSummary {
  ls_domain : Json;
  ls_platform : Json;
  ls_success_count : Json;
  ls_last_success : Json;
  ls_nav_steps : nat;
  ls_form_fields : nat;
  ls_payment_fields : nat;
}.

(** The body of the [try] for one decoded file. *)
Definition summarize (filename : string) (flow : Json) : PyResult FlowSummary :=
  dom <-- dict_get flow "domain" (JStr (PyStr.remove_all ".json" filename)) ;;
  plat <-- dict_get flow "platform" (JStr "unknown") ;;
  sc <-- dict_get flow "success_count" (JInt 0) ;;
  ls <-- dict_get flow "last_success" JNull ;;
  nav <-- dict_get flow "navigation_steps" (JArr []) ;;
  nav_n <-- py_len nav ;;
  form <-- dict_get flow "form_selectors" (JObj []) ;;
  form_n <-- py_len form ;;
  pay <-- dict_get flow "payment_selectors" (JObj []) ;;
  pay_n <-- py_len pay ;;
  Ok (mkSummary dom plat sc ls nav_n form_n pay_n).

(** The loop over [os.listdir(FLOWS_DIR)]: each entry is a file name with
    the outcome of [open] and [json.load] on it. *)
Fixpoint list_flows_go (entries : list (string * PyResult Json))
    : PyResult (list FlowSummary) :=
  match entries with
  | [] => Ok []
  | (filename, outcome) :: rest =>
      if negb (PyStr.endswith ".json" filename) then list_flows_go rest
      else
        match bind outcome (summarize filename) with
        | Ok s => r <-- list_flows_go rest ;; Ok (s :: r)
        | Raise e => if caught e then list_flows_go rest else Raise e
        end
  end.

(** [list_flows()]; [None] when [FLOWS_DIR] does not exist. *)
Definition list_flows (flows_dir : option (list (string * PyResult Json)))
    : PyResult (list FlowSummary) :=
  match flows_dir with
  | None => Ok []
  | Some entries => list_flows_go entries
  end.

(** A [.json] entry that was read and decoded. *)
Definition decoded_json_file (entry : string * PyResult Json) : bool :=
  PyStr.endswith ".json" (fst entry)
  && match snd entry with Ok _ => true | Raise _ => false end.

End ListFlows.

(* ------------------------------------------------------------------ *)
(** ** Step extraction: [extract_navigation_steps] and its helpers *)

(** A [DOMInteractedElement]: [attributes], [ax_name], [node_name]. *)
Record Element := mkElement {
  el_attributes : option (gmap string string);
  el_ax_name : option string;
  el_node_name : option string;
}.

(** [attrs.get(k)] with [None] read as [''] (attribute values are
    strings). *)
Definition attr (attrs : gmap string string) (k : string) : string :=
  default "" (attrs !! k).

(** [f'{prefix}[{name}{op}"{value}"]'] *)
Definition sel_attr (prefix name op value : string) : string :=
  (prefix ++ "[" ++ name ++ op ++ PyStr.dq ++ value ++ PyStr.dq ++ "]")%string.

(** [_build_selector(tag, attrs)] *)
Definition _build_selector (tag0 : string) (attrs : gmap string string) : option string :=
  let tag := PyStr.lower tag0 in
  if negb (String.eqb (attr attrs "id") "") then Some ("#" ++ attr attrs "id")%string
  else if negb (String.eqb (attr attrs "name") "") && negb (String.eqb tag "")
  then Some (sel_attr tag "name" "=" (attr attrs "name"))
  else
    match List.find (fun a => negb (String.eqb (attr attrs a) ""))
            ["data-testid"; "data-test"; "data-cy"] with
    | Some a => Some (sel_attr "" a "=" (attr attrs a))
    | None =>
        if negb (String.eqb (attr attrs "aria-label") "")
        then Some (sel_attr "" "aria-label" "=" (attr attrs "aria-label"))
        else if negb (String.eqb (attr attrs "class") "") && negb (String.eqb tag "")
        then
          let classes := PyStr.split (attr attrs "class") in
          let specific := filter (fun c => (3 <? String.length c)%nat
                                           && negb (Py.startswith "_" c)) classes in
          match specific with
          | c :: _ => Some (tag ++ "." ++ c)%string
          | [] => None
          end
        else None
  end.

Definition any_in (words : list string) (t : string) : bool :=
  existsb (fun w => PyStr.contains w t) words.

(** The multiplication sign U+00D7. *)
Definition times_sign : string := String "215"%char EmptyString.

(** [_guess_purpose(text, attrs, url)]: only [text] is read. *)
Definition _guess_purpose (text : string) : string :=
  let t := PyStr.lower text in
  if any_in ["accept"; "accepteren"; "cookie"; "consent"; "agree"] t
  then "cookie_consent"
  else if any_in ["add to cart"; "in winkelwagen"; "bestellen"; "buy"; "kopen";
                  "wil bestellen"] t
  then "add_to_cart"
  else if any_in ["checkout"; "kassa"; "winkelwagen"; "cart";
                  "verder naar bestellen"; "ga bestellen"] t
  then "go_to_checkout"
  else if any_in ["guest"; "zonder registratie"; "zonder account";
                  "continue without"] t
  then "guest_checkout"
  else if any_in ["verder"; "continue"; "next"; "doorgaan"; "volgende"] t
  then "continue"
  else if any_in ["bevestigen"; "confirm"; "accept"] t then "confirm"
  else if any_in ["close"; "sluiten"; "dismiss"; times_sign] t then "close_popup"
  else if any_in ["creditcard"; "credit card"; "betalen"; "pay"] t
  then "select_payment"
  else "other".

(** The step dict [_build_step_from_element] returns. *)
Record ClickStep := mkClickStep {
  c_action : string;
  c_text : string;
  c_selector : option string;
  c_tag : string;
  c_url_at : option string;
  c_purpose : string;
  c_aria_label : option string;   (* absent unless the attribute is set *)
  c_role : option string;         (* absent unless the attribute is set *)
}.

(** [_build_step_from_element(action_type, element, url)] for an element
    that is not [None]. *)
Definition _build_step_from_element (action_type : string) (element : Element)
    (url : option string) : option ClickStep :=
  let attrs := default ∅ (el_attributes element) in
  let text := default "" (el_ax_name element) in
  let tag := default "" (el_node_name element) in
  let selector := _build_selector tag attrs in
  if negb (PyStr.truthy selector) && String.eqb text "" then None
  else Some {|
    c_action := action_type;
    c_text := Py.take 100 text;
    c_selector := selector;
    c_tag := PyStr.lower tag;
    c_url_at := url;
    c_purpose := _guess_purpose text;
    c_aria_label :=
      if String.eqb (attr attrs "aria-label") "" then None
      else Some (Py.take 100 (attr attrs "aria-label"));
    c_role := if String.eqb (attr attrs "role") "" then None else Some (attr attrs "role");
  |}.

Module Extract.
Import LoadFlow.

Local Notation "x <-- m ;; k" := (bind m (fun x => k))
  (at level 100, m at next level, right associativity).

(** One action of [history.model_actions()]: its keys other than
    [interacted_element] with their values, and the
    [interacted_element] (an element or [None]). *)
Record Action := mkAction {
  a_entries : list (string * Json);
  a_interacted : option Element;
}.

Definition has_key (a : Action) (k : string) : bool :=
  existsb (fun kv => String.eqb (fst kv) k) (a_entries a).

Definition a_get (a : Action) (k : string) : option Json := obj_get (a_entries a) k.

(** [bool(x)] *)
Definition truthy (j : Json) : bool :=
  match j with
  | JNull => false
  | JBool b => b
  | JInt z => negb (Z.eqb z 0)
  | JFloat (S754_zero _) => false
  | JFloat _ => true
  | JStr s => negb (String.eqb s "")
  | JArr l => match l with [] => false | _ => true end
  | JObj kvs => match kvs with [] => false | _ => true end
  end.

(** The [url] of a navigate step: [nav_data.get('url')], or
    [str(nav_data)] for a [nav_data] that is not a dict. *)
Inductive NavUrl :=
| UrlValue (j : Json)
| UrlStr (j : Json).

Definition url_truthy (u : NavUrl) : bool :=
  match u with
  | UrlValue j => truthy j
  | UrlStr (JStr s) => negb (String.eqb s "")
  | UrlStr _ => true
  end.

(** The steps [extract_navigation_steps] appends. *)
Inductive XStep :=
| XClick (c : ClickStep)
| XNavigate (url : NavUrl)
| XWait (seconds : Json)
| XGoBack.

(** [2 < x] *)
Definition two_lt (x : Json) : PyResult bool :=
  match x with
  | JInt z => Ok (2 <? z)
  | JBool _ => Ok false
  | JFloat f => Ok (SFltb (PyFloat.of_int 2) f)
  | _ => Raise TypeError
  end.

(** [min(x, 2)]: [2] replaces [x] only when [2 < x]. *)
Definition min2 (x : Json) : PyResult Json :=
  gt <-- two_lt x ;; Ok (if gt then JInt 2 else x).

(** [f"{selector}:{text[:20]}"] *)
Definition dedup_key (c : ClickStep) : string :=
  (PyStr.fmt (c_selector c) ++ ":" ++ Py.take 20 (c_text c))%string.

(** The loop state: [seen_selectors] and [steps]. *)
Definition State : Type := list string * list XStep.

(** One iteration of the loop, for action number [i]. *)
Definition extract_step (urls : list (option string)) (i : nat) (st : State)
    (action : Action) : PyResult State :=
  let '(seen, steps) := st in
  let url := match nth_error urls i with Some u => u | None => None end in
  let action_keys :=
    filter (fun k => negb (String.eqb k "interacted_element" || String.eqb k "result"))
      (map fst (a_entries action)) in
  if existsb (fun k => String.eqb k "fill_shipping_form" || String.eqb k "fill_payment_form"
                       || String.eqb k "done") action_keys
  then Ok st
  else if has_key action "click" then
    match a_interacted action with
    | None => Ok st
    | Some interacted =>
        match _build_step_from_element "click" interacted url with
        | None => Ok st
        | Some step =>
            let purpose := c_purpose step in
            let text := c_text step in
            let tag := c_tag step in
            if String.eqb text "" && String.eqb purpose "other" then Ok st
            else if String.eqb tag "span" && String.eqb purpose "other" then Ok st
            else if String.eqb tag "input" || String.eqb tag "textarea"
                    || String.eqb tag "select" then Ok st
            else
              let key := dedup_key step in
              if existsb (String.eqb key) seen then Ok st
              else Ok (key :: seen, steps ++ [XClick step])
        end
    end
  else if has_key action "go_to_url" || has_key action "navigate" then
    let g := default JNull (a_get action "go_to_url") in
    let nav_data := if truthy g then g else default (JObj []) (a_get action "navigate") in
    let nav_url :=
      match nav_data with
      | JObj kvs => UrlValue (default JNull (obj_get kvs "url"))
      | _ => UrlStr nav_data
      end in
    if url_truthy nav_url then Ok (seen, steps ++ [XNavigate nav_url]) else Ok st
  else if has_key action "wait" then
    let wait_data := default (JObj []) (a_get action "wait") in
    let seconds :=
      match wait_data with
      | JObj kvs => default (JInt 2) (obj_get kvs "seconds")
      | _ => JInt 2
      end in
    s <-- min2 seconds ;; Ok (seen, steps ++ [XWait s])
  else if has_key action "go_back" then Ok (seen, steps ++ [XGoBack])
  else Ok st.

Fixpoint extract_go (urls : list (option string)) (i : nat) (st : State)
    (actions : list Action) : PyResult State :=
  match actions with
  | [] => Ok st
  | a :: rest => st' <-- extract_step urls i st a ;; extract_go urls (S i) st' rest
  end.

(** The agent history: [model_actions()] and [urls()], or an exception
    raised by one of them. *)
Inductive History :=
| HistoryError
| HistoryOk (actions : list Action) (urls : list (option string)).

(** [extract_navigation_steps(history)] *)
Definition extract_navigation_steps (h : History) : PyResult (list XStep) :=
  match h with
  | HistoryError => Ok []
  | HistoryOk actions urls => st <-- extract_go urls 0 ([], []) actions ;; Ok (snd st)
  end.

(** An action [{'wait': {'seconds': v}}]. *)
Definition wait_action (v : Json) : Action := mkAction [("wait", JObj [("seconds", v)])] None.

(** The click steps of a step list. *)
Definition clicks (steps : list XStep) : list ClickStep :=
  flat_map (fun s => match s with XClick c => [c] | _ => [] end) steps.

(** The [seconds] of the wait steps of a step list. *)
Definition waits (steps : list XStep) : list Json :=
  flat_map (fun s => match s with XWait j => [j] | _ => [] end) steps.

End Extract.

(* ------------------------------------------------------------------ *)
(** ** [country_name] and the fill tools' field lists *)

Definition COUNTRY_MAP : list (string * string) := [
  ("AF", "Afghanistan"); ("AL", "Albania"); ("DZ", "Algeria"); ("AR", "Argentina");
  ("AU", "Australia"); ("AT", "Austria"); ("BE", "Belgium"); ("BR", "Brazil");
  ("CA", "Canada"); ("CL", "Chile"); ("CN", "China"); ("CO", "Colombia");
  ("CZ", "Czech Republic"); ("DK", "Denmark"); ("EG", "Egypt"); ("FI", "Finland");
  ("FR", "France"); ("DE", "Germany"); ("GR", "Greece"); ("HK", "Hong Kong");
  ("HU", "Hungary"); ("IN", "India"); ("ID", "Indonesia"); ("IE", "Ireland");
  ("IL", "Israel"); ("IT", "Italy"); ("JP", "Japan"); ("MY", "Malaysia");
  ("MX", "Mexico"); ("NL", "Netherlands"); ("NZ", "New Zealand"); ("NO", "Norway");
  ("PK", "Pakistan"); ("PE", "Peru"); ("PH", "Philippines"); ("PL", "Poland");
  ("PT", "Portugal"); ("RO", "Romania"); ("RU", "Russia"); ("SA", "Saudi Arabia");
  ("SG", "Singapore"); ("ZA", "South Africa"); ("KR", "South Korea");
  ("ES", "Spain"); ("SE", "Sweden"); ("CH", "Switzerland"); ("TW", "Taiwan");
  ("TH", "Thailand"); ("TR", "Turkey"); ("UA", "Ukraine"); ("AE", "United Arab Emirates");
  ("GB", "United Kingdom"); ("US", "United States"); ("VN", "Vietnam")
].

(** [d.get(k)] on a dict literal with distinct keys. *)
Fixpoint assoc_get (k : string) (kvs : list (string * string)) : option string :=
  match kvs with
  | [] => None
  | (k', v) :: r => if String.eqb k k' then Some v else assoc_get k r
  end.

(** [country_name(code)] *)
Definition country_name (code : string) : string :=
  match PyStr.upper code with
  | Some u => default code (assoc_get u COUNTRY_MAP)
  | None => code
  end.

(** [sels(field_name, universal)] *)
Definition sels (saved : gmap string string) (field_name : string)
    (universal : list string) : list string :=
  match saved !! field_name with
  | Some s => s :: universal
  | None => universal
  end.

Record FormField := mkFormField {
  ff_name : string;
  ff_value : string;
  ff_selectors : list string;
  ff_isSelect : bool;
  ff_selectCode : option string;
}.

(** [build_field_list(...)] *)
Definition build_field_list (email first_name last_name street city state zip_code
    country_code c_name phone : string) (saved_selectors : option (gmap string string))
    : list FormField :=
  let saved := default ∅ saved_selectors in
  [ mkFormField "email" email (sels saved "email" [
      sel_attr "" "autocomplete" "=" "email"; sel_attr "input" "name" "=" "email";
      sel_attr "input" "type" "=" "email"; "#email"; "#checkout_email";
      sel_attr "input" "id" "*=" "email"]) false None;
    mkFormField "country" c_name (sels saved "country" [
      sel_attr "select" "autocomplete" "=" "country"; sel_attr "select" "name" "*=" "country";
      sel_attr "select" "autocomplete" "=" "country-name"; "#country";
      sel_attr "select" "id" "*=" "country"]) true (Some country_code);
    mkFormField "first_name" first_name (sels saved "first_name" [
      sel_attr "" "autocomplete" "=" "given-name"; sel_attr "input" "name" "*=" "first";
      sel_attr "input" "name" "*=" "First"; "#firstName";
      sel_attr "input" "id" "*=" "firstName"]) false None;
    mkFormField "last_name" last_name (sels saved "last_name" [
      sel_attr "" "autocomplete" "=" "family-name"; sel_attr "input" "name" "*=" "last";
      sel_attr "input" "name" "*=" "Last"; "#lastName";
      sel_attr "input" "id" "*=" "lastName"]) false None;
    mkFormField "address" street (sels saved "address" [
      sel_attr "" "autocomplete" "=" "address-line1"; sel_attr "input" "name" "*=" "address1";
      sel_attr "input" "name" "*=" "street"; "#address1"]) false None;
    mkFormField "city" city (sels saved "city" [
      sel_attr "" "autocomplete" "=" "address-level2"; sel_attr "input" "name" "*=" "city";
      "#city"]) false None;
    mkFormField "state" state (sels saved "state" [
      sel_attr "" "autocomplete" "=" "address-level1"; sel_attr "select" "name" "*=" "state";
      sel_attr "select" "name" "*=" "zone"; sel_attr "input" "name" "*=" "state";
      "#province"]) false None;
    mkFormField "zip_code" zip_code (sels saved "zip_code" [
      sel_attr "" "autocomplete" "=" "postal-code"; sel_attr "input" "name" "*=" "zip";
      sel_attr "input" "name" "*=" "postal"; "#postalCode"]) false None;
    mkFormField "phone" phone (sels saved "phone" [
      sel_attr "" "autocomplete" "=" "tel"; sel_attr "input" "name" "*=" "phone";
      sel_attr "input" "type" "=" "tel"; "#phone"]) false None ].

Record PayField := mkPayField {
  pf_name : string;
  pf_value : string;
  pf_selectors : list string;
}.

(** [build_payment_field_list(...)] *)
Definition build_payment_field_list (card_number card_exp card_cvv card_name : string)
    (saved_selectors : option (gmap string string)) : list PayField :=
  let saved := default ∅ saved_selectors in
  [ mkPayField "card_number" card_number (sels saved "card_number" [
      sel_attr "" "autocomplete" "=" "cc-number"; sel_attr "input" "name" "*=" "card_number";
      sel_attr "input" "name" "*=" "cardNumber"; sel_attr "input" "name" "*=" "number"]);
    mkPayField "expiry" card_exp (sels saved "card_expiry" [
      sel_attr "" "autocomplete" "=" "cc-exp"; sel_attr "input" "name" "*=" "expiry";
      sel_attr "input" "name" "*=" "exp"; sel_attr "input" "placeholder" "*=" "MM"]);
    mkPayField "cvv" card_cvv (sels saved "card_cvv" [
      sel_attr "" "autocomplete" "=" "cc-csc"; sel_attr "input" "name" "*=" "cvv";
      sel_attr "input" "name" "*=" "cvc"; sel_attr "input" "name" "*=" "verification"]);
    mkPayField "cardholder" card_name (sels saved "card_name" [
      sel_attr "" "autocomplete" "=" "cc-name"; sel_attr "input" "name" "*=" "cardholder";
      sel_attr "input" "name" "*=" "card_name"; sel_attr "input" "name" "*=" "nameOnCard"]) ].

(** [usedSelectors] of [FORM_FILL_JS]: the field name of each filled field
    with the selector that filled it. *)
Definition used_selectors (filled : list (string * string)) : gmap string string :=
  foldl (fun m nv => <[fst nv := snd nv]> m) ∅ filled.

(* ------------------------------------------------------------------ *)
(** ** [detectFieldType] of [DISCOVER_SELECTORS_JS] *)

Record FieldPatterns := mkPatterns {
  fp_auto : list string;
  fp_name : list string;
  fp_type : list string;
}.

Definition FIELD_PATTERNS : list (string * FieldPatterns) := [
  ("email", mkPatterns ["email"] ["email"] ["email"]);
  ("first_name", mkPatterns ["given-name"] ["first"; "firstName"; "first_name"] []);
  ("last_name", mkPatterns ["family-name"] ["last"; "lastName"; "last_name"] []);
  ("address", mkPatterns ["address-line1"; "street-address"] ["address1"; "street"; "address"] []);
  ("city", mkPatterns ["address-level2"] ["city"] []);
  ("state", mkPatterns ["address-level1"] ["state"; "province"; "zone"; "region"] []);
  ("zip_code", mkPatterns ["postal-code"] ["zip"; "postal"; "postcode"; "postalCode"] []);
  ("country", mkPatterns ["country"; "country-name"] ["country"; "countryCode"] []);
  ("phone", mkPatterns ["tel"; "tel-national"] ["phone"; "telephone"] ["tel"]);
  ("card_number", mkPatterns ["cc-number"] ["card_number"; "cardNumber"; "number"] []);
  ("card_expiry", mkPatterns ["cc-exp"] ["expiry"; "exp"; "expiration"] []);
  ("card_cvv", mkPatterns ["cc-csc"] ["cvv"; "cvc"; "verification"; "security"] []);
  ("card_name", mkPatterns ["cc-name"] ["cardholder"; "card_name"; "nameOnCard"] [])
].

Definition PAYMENT_FIELDS : list string := ["card_number"; "card_expiry"; "card_cvv"; "card_name"].

Definition is_payment_field (ft : string) : bool := existsb (String.eqb ft) PAYMENT_FIELDS.

(** [detectFieldType(el)] over the attributes [autocomplete], [name],
    [id] and [type] ([None] when missing). *)
Definition detectFieldType (autocomplete name id type : option string) : option string :=
  let auto := PyStr.lower (default "" autocomplete) in
  let name := PyStr.lower (default "" name) in
  let id := PyStr.lower (default "" id) in
  let type := PyStr.lower (default "" type) in
  match List.find (fun fp =>
          existsb (String.eqb auto) (fp_auto (snd fp))
          || existsb (fun p => PyStr.contains (PyStr.lower p) name
                               || PyStr.contains (PyStr.lower p) id) (fp_name (snd fp))
          || existsb (String.eqb type) (fp_type (snd fp))) FIELD_PATTERNS with
  | Some fp => Some (fst fp)
  | None => None
  end.

(* ------------------------------------------------------------------ *)
(** ** The saved state a checkout run starts from ([run_checkout]) *)

Record Plan := mkPlan {
  plan_form : gmap string string;
  plan_payment : gmap string string;
  plan_nav_steps : list NavStep;
}.

(** [if saved_flow:] -- a dict with at least one key. *)
Definition flow_truthy (f : Flow) : bool :=
  match f with
  | mkFlow None None None None None None None None None None None None None => false
  | _ => true
  end.

(** Lines 370-391 of [run_checkout]: [saved_form_sels],
    [saved_payment_sels] and [saved_nav_steps] from the loaded flow and
    the request's selectors. *)
Definition checkout_plan (saved_flow : option Flow)
    (req_form req_payment : option (gmap string string)) : Plan :=
  let saved_form_sels := default ∅ req_form in
  let saved_payment_sels := default ∅ req_payment in
  match saved_flow with
  | Some flow =>
      if flow_truthy flow then
        let health := check_flow_health flow in
        let form := saved_form_sels ∪ default ∅ (form_selectors flow) in
        let payment := saved_payment_sels ∪ default ∅ (payment_selectors flow) in
        if h_needs_relearn health then mkPlan form payment []
        else mkPlan form payment (default [] (navigation_steps flow))
      else mkPlan saved_form_sels saved_payment_sels []
  | None => mkPlan saved_form_sels saved_payment_sels []
  end.

(* ------------------------------------------------------------------ *)
(** ** [urlparse(url).path] and [_discover_and_save] *)

Section Discover.

(** [_check_bracketed_host(hostname)] ([ipaddress] validation of a
    bracketed host): [true] when it raises nothing. *)
Variable _check_bracketed_host : string -> bool.

(** The scheme step of [urlsplit] with the scheme it finds. *)
Definition split_scheme (url : string) : string * string :=
  match Py.find ":" url with
  | Some i =>
      match url with
      | String c0 _ =>
          if (0 <? i)%nat && UrlParse.is_ascii_alpha c0
             && UrlParse.all_chars UrlParse.is_scheme_char (Py.take i url)
          then (Py.lower (Py.take i url), Py.drop (S i) url) else (EmptyString, url)
      | EmptyString => (EmptyString, url)
      end
  | None => (EmptyString, url)
  end.

(** [_check_bracketed_netloc(netloc)]: [true] when it raises nothing. *)
Definition _check_bracketed_netloc (netloc : string) : bool :=
  let hostname_and_port := Py.rpartition_tail "@" netloc in
  match Py.partition "[" hostname_and_port with
  | (before_bracket, Some bracketed) =>
      String.eqb before_bracket ""
      && (let '(hostname, port) := Py.partition "]" bracketed in
          match port with
          | Some p => String.eqb p "" || Py.startswith ":" p
          | None => true
          end
          && _check_bracketed_host hostname)
  | (_, None) => true
  end.

Definition uses_params : list string :=
  [""; "ftp"; "hdl"; "prospero"; "http"; "imap"; "https"; "shttp"; "rtsp"; "rtspu";
   "sip"; "sips"; "mms"; "sftp"; "tel"].

(** [_splitparams(url)[0]] *)
Definition splitparams_path (url : string) : string :=
  if Py.contains_char "/" url then
    let tail := String "/" (Py.rpartition_tail "/" url) in
    match Py.find ";" tail with
    | Some j => Py.take (String.length url - String.length tail + j) url
    | None => url
    end
  else
    match Py.find ";" url with
    | Some i => Py.take i url
    | None => Py.take (String.length url - 1) url
    end.

(** [urlparse(url).path]; [None] when [urlsplit] raises [ValueError]
    ([_checknetloc] raises nothing on Latin-1 text). *)
Definition urlparse_path (url0 : string) : option string :=
  let url1 := Py.remove_chars UrlParse.is_unsafe_url_byte
                (Py.lstrip UrlParse.is_c0_control_or_space url0) in
  let '(scheme, url2) := split_scheme url1 in
  let after_netloc :=
    if Py.startswith "//" url2 then
      let netloc := UrlParse.netloc_prefix (Py.drop 2 url2) in
      let ob := Py.contains_char "[" netloc in
      let cb := Py.contains_char "]" netloc in
      if (ob && negb cb) || (cb && negb ob) then None
      else if ob && cb && negb (_check_bracketed_netloc netloc) then None
      else Some (Py.drop (2 + String.length netloc) url2)
    else Some url2 in
  match after_netloc with
  | None => None
  | Some url3 =>
      let url4 := fst (Py.partition "#" url3) in
      let url5 := fst (Py.partition "?" url4) in
      if existsb (String.eqb scheme) uses_params && Py.contains_char ";" url5
      then Some (splitparams_path url5) else Some url5
  end.

(** The page scan of [_discover_and_save]: it fails before anything is
    read, or [DETECT_PLATFORM_JS] fails after [DISCOVER_SELECTORS_JS]
    returned, or both return. *)
Inductive ScanOutcome :=
| ScanFailed
| ScanNoPlatform (form payment : gmap string string)
| Scanned (form payment : gmap string string) (platform : string).

Definition checkout_url_patterns : list string :=
  ["/checkouts/"; "/checkout/"; "/cart/checkout"; "/order/"].

Definition map_truthy (m : gmap string string) : bool := negb (bool_decide (m = ∅)).

(** [_discover_and_save(browser, request, final_url, fill_results,
    nav_steps)]: the directory after it and the returned selectors, or
    [None] when it raises. *)
Definition _discover_and_save (dir : FlowDir) (product_url : string)
    (final_url : option string) (fill_form fill_payment : gmap string string)
    (scan : ScanOutcome) (nav_steps : list NavStep) (now : string)
    : option (FlowDir * (gmap string string * gmap string string)) :=
  let '(scanned_form, scanned_payment, platform) :=
    match scan with
    | ScanFailed => (∅, ∅, "unknown"%string)
    | ScanNoPlatform f p => (f, p, "unknown"%string)
    | Scanned f p pl => (f, p, pl)
    end in
  let discovered_form := fill_form ∪ scanned_form in
  let discovered_payment := fill_payment ∪ scanned_payment in
  let pattern :=
    if PyStr.truthy final_url then
      match urlparse_path (default "" final_url) with
      | Some path => Some (List.find (fun p => PyStr.contains p path) checkout_url_patterns)
      | None => None
      end
    else Some None in
  match pattern with
  | None => None
  | Some checkout_url_pattern =>
      if map_truthy discovered_form || map_truthy discovered_payment
         || match nav_steps with [] => false | _ => true end
      then Some (save_flow dir product_url discovered_form (Some discovered_payment)
                   (Some nav_steps) checkout_url_pattern (Some platform) final_url now,
                 (discovered_form, discovered_payment))
      else Some (dir, (discovered_form, discovered_payment))
  end.

End Discover.


(** A concrete history: a consent click, a repeated consent click, a
    long wait, a click into an input field and a navigation. *)
Definition sample_history : Extract.History :=
  Extract.HistoryOk
    [Extract.mkAction [("click", LoadFlow.JObj [])]
       (Some (mkElement (Some (<["id" := "consent"]> ∅)) (Some "Accept all") (Some "BUTTON")));
     Extract.mkAction [("click", LoadFlow.JObj [])]
       (Some (mkElement (Some (<["id" := "consent"]> ∅)) (Some "Accept all") (Some "BUTTON")));
     Extract.wait_action (LoadFlow.JInt 10);
     Extract.mkAction [("click", LoadFlow.JObj [])]
       (Some (mkElement (Some (<["name" := "email"]> ∅)) (Some "Email") (Some "INPUT")));
     Extract.mkAction [("navigate", LoadFlow.JObj [("url", LoadFlow.JStr "https://shop.nl/cart")])]
       None]
    [Some "https://shop.nl/p"].

(* ================================================================== *)
(** * Properties *)

(** ** Sanity checks on concrete inputs *)

Example domain_key_url :
  domain_key "https://www.MediaMarkt.nl/products/x" = "mediamarkt.nl"%string.
Proof. reflexivity. Qed.

Example domain_key_userinfo_port :
  domain_key "http://user@WWW.A.com:80/" = "a.com"%string.
Proof. reflexivity. Qed.

Example verify_phone : verifyField "+15551234567" "+1 (555) 123-4567" = true.
Proof. reflexivity. Qed.

(** ** Store lemmas *)

Lemma save_flow_lookup dir d form pay nav pat plat url now :
  save_flow dir d form pay nav pat plat url now !! _flow_path (domain_key d) =
  Some (let existing := default empty_flow (dir !! _flow_path (domain_key d)) in
    {| domain := Some (domain_key d);
       platform := Py.or_str plat (Some (default "unknown" (platform existing)));
       checkout_url_pattern := Py.or_str pat (checkout_url_pattern existing);
       navigation_steps :=
         Some (match nav with
               | Some steps => steps
               | None => default [] (navigation_steps existing)
               end);
       form_selectors := Some (form ∪ default ∅ (form_selectors existing));
       payment_selectors :=
         Some (default ∅ pay ∪ default ∅ (payment_selectors existing));
       success_count := Some (default 0 (success_count existing) + 1);
       failure_count := Some (default 0 (failure_count existing));
       consecutive_failures := Some 0;
       last_success := Some now;
       last_url := Py.or_str url (last_url existing);
       last_failure := None;
       last_error := None |}).
Proof. unfold save_flow. cbn zeta. by rewrite lookup_insert_eq. Qed.

Lemma record_failure_lookup dir d error now :
  record_failure dir d error now !! _flow_path (domain_key d) =
  match dir !! _flow_path (domain_key d) with
  | None => None
  | Some flow =>
      Some {| domain := domain flow;
              platform := platform flow;
              checkout_url_pattern := checkout_url_pattern flow;
              navigation_steps := navigation_steps flow;
              form_selectors := form_selectors flow;
              payment_selectors := payment_selectors flow;
              success_count := success_count flow;
              failure_count := Some (default 0 (failure_count flow) + 1);
              consecutive_failures := Some (default 0 (consecutive_failures flow) + 1);
              last_success := last_success flow;
              last_url := last_url flow;
              last_failure := Some now;
              last_error :=
                match error with
                | Some e => if String.eqb e "" then last_error flow else Some (Py.take 200 e)
                | None => last_error flow
                end |}
  end.
Proof.
  unfold record_failure. cbn zeta.
  destruct (dir !! _flow_path (domain_key d)) as [flow|] eqn:E; [|exact E].
  by rewrite lookup_insert_eq.
Qed.

(** ** Health monitor *)

(** C2 (counterexample): with [success_count = 1] and [failure_count = 4]
    the rate is exactly 20.0, which is not below 20, so the status is
    not [broken]. *)
Lemma C2_counterexample :
  h_status (check_flow_health (flow_with_counts 1 4 0)) <> "broken"%string.
Proof. vm_compute. discriminate. Qed.

(** C2 (amended): a record with [success_count = 1], [failure_count = 4]
    and fewer than two consecutive failures has 5 total runs, success rate
    20.0 and status [degraded]. *)
Theorem C2_health_1_4_degraded (flow : Flow)
    (Hs : success_count flow = Some 1) (Hf : failure_count flow = Some 4)
    (Hc : default 0 (consecutive_failures flow) < 2) :
  total_runs flow = 5
  /\ h_success_rate (check_flow_health flow) = NFloat (PyFloat.of_int 20)
  /\ h_status (check_flow_health flow) = "degraded"%string.
Proof.
  destruct flow; simpl in *; subst.
  unfold check_flow_health; simpl.
  replace (2 <=? default 0 consecutive_failures0) with false
    by (symmetry; apply Z.leb_gt; lia).
  split; [reflexivity | split; vm_compute; reflexivity].
Qed.

Lemma C2_witness :
  success_count (flow_with_counts 1 4 0) = Some 1
  /\ failure_count (flow_with_counts 1 4 0) = Some 4
  /\ default 0 (consecutive_failures (flow_with_counts 1 4 0)) < 2
  /\ total_runs (flow_with_counts 1 4 0) = 5
  /\ h_success_rate (check_flow_health (flow_with_counts 1 4 0)) = NFloat (PyFloat.of_int 20)
  /\ h_status (check_flow_health (flow_with_counts 1 4 0)) = "degraded"%string.
Proof.
  refine (conj eq_refl (conj eq_refl (conj _ _))); [simpl; lia|].
  apply (C2_health_1_4_degraded (flow_with_counts 1 4 0)); [reflexivity | reflexivity | simpl; lia].
Defined.

(** C3: two or more consecutive failures force [needs_relearn = true] and
    the status [needs_relearn], whatever the counters and timestamps. *)
Theorem C3_consecutive_failures_force_relearn (flow : Flow)
    (Hc : 2 <= default 0 (consecutive_failures flow)) :
  h_needs_relearn (check_flow_health flow) = true
  /\ h_status (check_flow_health flow) = "needs_relearn"%string.
Proof.
  unfold check_flow_health; simpl.
  apply Z.leb_le in Hc. rewrite Hc, orb_true_r. split; reflexivity.
Qed.

Lemma C3_witness :
  2 <= default 0 (consecutive_failures (flow_with_counts 9 0 2))
  /\ h_needs_relearn (check_flow_health (flow_with_counts 9 0 2)) = true
  /\ h_status (check_flow_health (flow_with_counts 9 0 2)) = "needs_relearn"%string.
Proof.
  split; [simpl; lia|].
  apply (C3_consecutive_failures_force_relearn (flow_with_counts 9 0 2)). simpl; lia.
Defined.

(** ** Form fill read-back *)

(** C9 (counterexample): a blank expected value is accepted whatever is
    read back, although neither the trimmed values nor the
    punctuation-stripped values are equal. *)
Lemma C9_counterexample :
  verifyField "abc" "   " = true
  /\ Js.trim "abc" <> Js.trim "   "
  /\ Js.strip_phone_punct (Js.trim "abc") <> Js.strip_phone_punct (Js.trim "   ").
Proof. vm_compute. split; [reflexivity | split; discriminate]. Qed.

(** C9 (amended): [verifyField] accepts exactly when the trimmed expected
    value is empty, or the trimmed values are equal, or they are equal
    once whitespace, hyphens and parentheses are removed; the phone number
    example is accepted and ["Jane"] for ["Jane Doe"] is rejected. *)
Theorem C9_verifyField_accepts :
  (forall value expected : string,
     verifyField value expected = true <->
     Js.trim expected = ""%string
     \/ Js.trim value = Js.trim expected
     \/ Js.strip_phone_punct (Js.trim value) = Js.strip_phone_punct (Js.trim expected))
  /\ verifyField "+15551234567" "+1 (555) 123-4567" = true
  /\ verifyField "Jane" "Jane Doe" = false.
Proof.
  split; [|split; reflexivity].
  intros value expected. unfold verifyField. cbv zeta.
  destruct (String.eqb_spec (Js.trim expected) ""); [tauto|].
  destruct (String.eqb_spec (Js.trim value) (Js.trim expected)); [tauto|].
  destruct (String.eqb_spec (Js.strip_phone_punct (Js.trim value))
                            (Js.strip_phone_punct (Js.trim expected))); [tauto|].
  split; [discriminate | intros [H|[H|H]]; contradiction].
Qed.

(** ** Frame of [save_flow] *)

(** C10: a save writes no [last_failure] and no [last_error], so right
    after it the timestamp re-learn condition is false (and so is
    [needs_relearn], the consecutive failures being reset). *)
Theorem C10_save_drops_failure_stamps (dir : FlowDir) (d : string)
    (form : gmap string string) (pay : option (gmap string string))
    (nav : option (list NavStep)) (pat plat url : option string) (now : string) :
  exists fl,
    save_flow dir d form pay nav pat plat url now !! _flow_path (domain_key d) = Some fl
    /\ last_failure fl = None
    /\ last_error fl = None
    /\ failure_after_success fl = false
    /\ h_needs_relearn (check_flow_health fl) = false.
Proof.
  eexists. rewrite save_flow_lookup. split; [reflexivity|].
  repeat split; reflexivity.
Qed.

(** ** [load_flow] *)

Lemma load_flow_no_file fs d :
  fs (_flow_path (domain_key d)) = LoadFlow.NoFile ->
  LoadFlow.load_flow fs d = LoadFlow.Ok None.
Proof. intros H. unfold LoadFlow.load_flow. cbn zeta. by rewrite H. Qed.

Lemma load_flow_caught_errors fs d e :
  fs (_flow_path (domain_key d)) = LoadFlow.Present (LoadFlow.Raise e) ->
  LoadFlow.caught e = true ->
  LoadFlow.load_flow fs d = LoadFlow.Ok None.
Proof. intros H He. unfold LoadFlow.load_flow. cbn zeta. rewrite H. simpl. by rewrite He. Qed.

(** C6 (code bug): [load_flow] raises to its caller on a flow file holding
    JSON that is not an object ([[]]: AttributeError from [.get]), on an
    object whose [navigation_steps] has no length (TypeError), and on a
    file that is not valid UTF-8 (UnicodeDecodeError): the
    [except (json.JSONDecodeError, IOError)] clause lets these through. *)
Theorem C6_load_flow_raises :
  LoadFlow.load_flow (fun _ => LoadFlow.Present (LoadFlow.Ok (LoadFlow.JArr [])))
    "example.com" = LoadFlow.Raise LoadFlow.AttributeError
  /\ LoadFlow.load_flow
       (fun _ => LoadFlow.Present (LoadFlow.Ok
          (LoadFlow.JObj [("navigation_steps"%string, LoadFlow.JInt 5)])))
       "example.com" = LoadFlow.Raise LoadFlow.TypeError
  /\ LoadFlow.load_flow (fun _ => LoadFlow.Present (LoadFlow.Raise LoadFlow.UnicodeDecodeError))
       "example.com" = LoadFlow.Raise LoadFlow.UnicodeDecodeError.
Proof. split; [|split]; reflexivity. Qed.

(** ** Replay boundary *)

Lemma prefix_append (p t : string) : String.prefix p (p ++ t)%string = true.
Proof.
  induction p as [|c p IH]; [destruct t; reflexivity|].
  simpl. destruct (ascii_dec c c); [exact IH|contradiction].
Qed.

Lemma prefix_split (p s : string) :
  String.prefix p s = true -> s = (p ++ Py.drop (String.length p) s)%string.
Proof.
  revert s. induction p as [|c p IH]; intros s H; [reflexivity|].
  destruct s as [|c' s]; [discriminate|]. simpl in H.
  destruct (ascii_dec c c'); [subst|discriminate].
  cbn [String.append String.length Py.drop]. apply (f_equal (String c')). by apply IH.
Qed.

Lemma drop_append (p t : string) : Py.drop (String.length p) (p ++ t)%string = t.
Proof. induction p; simpl; [destruct t|]; auto. Qed.

(** [re.search(r'/checkout/.+', s)] succeeds exactly when [s] has
    [/checkout/] followed by a character other than a newline. *)
Lemma checkout_subpage_search_spec (s : string) :
  checkout_subpage_search s = true <->
  exists pre c post,
    s = (pre ++ "/checkout/" ++ String c post)%string /\ c <> "010"%char.
Proof.
  split.
  - induction s as [|x r IH]; [discriminate|].
    intros H. change (checkout_subpage_search (String x r)) with
      ((Py.startswith "/checkout/" (String x r)
        && match Py.drop 10 (String x r) with
           | String c _ => negb (Ascii.eqb c "010"%char)
           | EmptyString => false
           end) || checkout_subpage_search r) in H.
    apply orb_true_iff in H as [H|H].
    + apply andb_true_iff in H as [Hp Hc].
      pose proof (prefix_split _ _ Hp) as Hs.
      destruct (Py.drop 10 (String x r)) as [|c post] eqn:Ed; [discriminate|].
      exists EmptyString, c, post. split.
      * rewrite Hs. simpl String.length. rewrite Ed. reflexivity.
      * intros ->. discriminate.
    + destruct (IH H) as (pre & c & post & -> & Hc).
      exists (String x pre), c, post. split; [reflexivity|exact Hc].
  - intros (pre & c & post & -> & Hc). induction pre as [|x pre IH].
    + simpl.
      destruct (Ascii.eqb_spec c "010"%char); [contradiction|reflexivity].
    + simpl String.append. simpl checkout_subpage_search.
      rewrite IH. apply orb_true_r.
Qed.

Lemma filter_pre_form_steps_eq (steps : list NavStep) :
  _filter_pre_form_steps steps =
  filter (fun s => is_wait s = false)
    (take_while (fun s => negb (is_replay_boundary s)) steps).
Proof.
  induction steps as [|step rest IH]; [reflexivity|].
  assert (Hdef : _filter_pre_form_steps (step :: rest) =
    if is_wait step then _filter_pre_form_steps rest
    else if is_replay_boundary step then []
    else step :: _filter_pre_form_steps rest) by reflexivity.
  rewrite Hdef, IH. destruct (is_wait step) eqn:Ew.
  - assert (Hb : is_replay_boundary step = false).
    { unfold is_replay_boundary, is_wait in *.
      apply String.eqb_eq in Ew. by rewrite Ew. }
    cbn [take_while]. rewrite Hb. cbn [negb].
    rewrite filter_cons_False; [reflexivity|]. by rewrite Ew.
  - cbn [take_while].
    destruct (is_replay_boundary step); cbn [negb]; [reflexivity|].
    rewrite filter_cons_True; [reflexivity|exact Ew].
Qed.

Lemma is_replay_boundary_spec (step : NavStep) :
  is_replay_boundary step = true <->
  step_action step = Some "click"%string
  /\ (step_purpose step = Some "continue"%string \/ step_purpose step = Some "confirm"%string)
  /\ exists url pre c post,
       step_url_at step = Some url
       /\ url = (pre ++ "/checkout/" ++ String c post)%string
       /\ c <> "010"%char.
Proof.
  destruct step as [act txt sel purp url]. unfold is_replay_boundary. simpl.
  rewrite !andb_true_iff, orb_true_iff, !String.eqb_eq, checkout_subpage_search_spec.
  split.
  - intros [[Ha Hp] (pre & c & post & Hu & Hc)].
    destruct act as [a|]; [simpl in Ha; subst|discriminate].
    destruct purp as [p|]; [simpl in Hp|destruct Hp; discriminate].
    destruct url as [u|]; [simpl in Hu|destruct pre; discriminate].
    split; [reflexivity|]. split; [destruct Hp; subst; auto|].
    exists u, pre, c, post. auto.
  - intros [Ha [Hp (u & pre & c & post & Hu & -> & Hc)]]. subst. simpl.
    split; [split; [reflexivity|]|].
    + destruct Hp as [Hp|Hp]; inversion Hp; auto.
    + exists pre, c, post. auto.
Qed.

(** C5 (counterexample): a [wait] step before the boundary is not kept:
    with no boundary step at all the filter does not return every step. *)
Lemma C5_counterexample :
  _filter_pre_form_steps
    [wait_step; click_step "add_to_cart" "https://shop.example/products/x"]
  <> [wait_step; click_step "add_to_cart" "https://shop.example/products/x"].
Proof. vm_compute. discriminate. Qed.

(** C5 (amended): the filter returns the steps strictly before the first
    [click] step whose purpose is [continue] or [confirm] and whose
    [url_at] contains [/checkout/] followed by a character other than a
    newline, in order, with the [wait] steps among them dropped. *)
Theorem C5_pre_form_steps (steps : list NavStep) :
  _filter_pre_form_steps steps =
  filter (fun s => is_wait s = false)
    (take_while (fun s => negb (is_replay_boundary s)) steps)
  /\ (forall step, is_replay_boundary step = true <->
       step_action step = Some "click"%string
       /\ (step_purpose step = Some "continue"%string \/ step_purpose step = Some "confirm"%string)
       /\ exists url pre c post,
            step_url_at step = Some url
            /\ url = (pre ++ "/checkout/" ++ String c post)%string
            /\ c <> "010"%char)
  /\ _filter_pre_form_steps
       [click_step "add_to_cart" "/products/x"; click_step "continue" "/checkout/address"]
     = [click_step "add_to_cart" "/products/x"].
Proof.
  split; [apply filter_pre_form_steps_eq|].
  split; [apply is_replay_boundary_spec|reflexivity].
Qed.

(** ** [record_failure] *)

Lemma take_length_min (n : nat) (s : string) :
  String.length (Py.take n s) = Nat.min n (String.length s).
Proof.
  revert s. induction n as [|n IH]; intros [|c s]; simpl; auto.
Qed.

Lemma take_prefix (n : nat) (s : string) : String.prefix (Py.take n s) s = true.
Proof.
  revert s. induction n as [|n IH]; intros [|c s]; simpl; auto.
  destruct (ascii_dec c c); [apply IH|contradiction].
Qed.

(** C7 (counterexample): an empty error message is not stored: the
    previous [last_error] stays instead of the (empty) truncated message. *)
Lemma C7_counterexample :
  last_error <$>
    (record_failure
       {["example.com"%string :=
           mkFlow (Some "example.com") (Some "unknown") None (Some []) (Some ∅) (Some ∅)
             (Some 1) (Some 0) (Some 0) (Some "t0") None None (Some "old")]}
       "example.com" (Some "") "t1" !! "example.com"%string)
  = Some (Some "old"%string)
  /\ Some "old"%string <> Some (Py.take 200 "").
Proof. split; [vm_compute; reflexivity | discriminate]. Qed.

(** C7 (amended): with no record [record_failure] changes nothing;
    otherwise it adds one to [failure_count] and to
    [consecutive_failures], stamps [last_failure], and, when the error
    message is non-empty, stores its first [min 200 (length)] characters
    as [last_error] (a missing or empty message leaves [last_error] as it
    was). *)
Theorem C7_record_failure_effect (dir : FlowDir) (d : string)
    (err : option string) (now : string) :
  match dir !! _flow_path (domain_key d) with
  | None => record_failure dir d err now = dir
  | Some fl =>
      exists fl',
        record_failure dir d err now !! _flow_path (domain_key d) = Some fl'
        /\ failure_count fl' = Some (default 0 (failure_count fl) + 1)
        /\ consecutive_failures fl' = Some (default 0 (consecutive_failures fl) + 1)
        /\ last_failure fl' = Some now
        /\ (forall e, err = Some e -> e <> ""%string ->
              last_error fl' = Some (Py.take 200 e)
              /\ String.length (Py.take 200 e) = Nat.min 200 (String.length e)
              /\ String.prefix (Py.take 200 e) e = true)
        /\ (err = None \/ err = Some ""%string -> last_error fl' = last_error fl)
  end.
Proof.
  pose proof (record_failure_lookup dir d err now) as Hl.
  destruct (dir !! _flow_path (domain_key d)) as [fl|] eqn:E.
  - eexists. split; [exact Hl|]. cbn [failure_count consecutive_failures last_failure last_error].
    split; [reflexivity|]. split; [reflexivity|]. split; [reflexivity|]. split.
    + intros e -> He. apply String.eqb_neq in He. rewrite He.
      split; [reflexivity|]. split; [apply take_length_min|apply take_prefix].
    + intros [-> | ->]; reflexivity.
  - unfold record_failure. cbn zeta. by rewrite E.
Qed.

(** ** Sequences of saves: the merge invariant *)

Lemma last_supplied_snoc {A} (xs : list (option A)) (x : option A) :
  last_supplied (xs ++ [x]) =
  match x with Some y => Some y | None => last_supplied xs end.
Proof.
  induction xs as [|x' xs IH]; simpl.
  - destruct x; reflexivity.
  - rewrite IH. destruct x; reflexivity.
Qed.

Lemma run_saves_snoc dir d calls c :
  run_saves dir d (calls ++ [c]) = apply_save d (run_saves dir d calls) c.
Proof. unfold run_saves. by rewrite fold_left_app. Qed.

Lemma union_lookup_later_wins (m_new m_old : gmap string string) k :
  (m_new ∪ m_old) !! k = match m_new !! k with Some v => Some v | None => m_old !! k end.
Proof. rewrite lookup_union. by destruct (m_new !! k), (m_old !! k). Qed.

Lemma run_saves_selectors dir d calls :
  dir !! _flow_path (domain_key d) = None ->
  let fl := default empty_flow (run_saves dir d calls !! _flow_path (domain_key d)) in
  (forall k, default ∅ (form_selectors fl) !! k =
             last_supplied (map (fun c => sc_form c !! k) calls))
  /\ (forall k, default ∅ (payment_selectors fl) !! k =
                last_supplied (map (fun c => default ∅ (sc_payment c) !! k) calls))
  /\ default [] (navigation_steps fl) = default [] (last_supplied (map sc_nav calls)).
Proof.
  intros Hnone. induction calls as [|c calls IH] using rev_ind; cbv zeta in *.
  - unfold run_saves. simpl. rewrite Hnone.
    split; [intros k; apply lookup_empty|].
    split; [intros k; apply lookup_empty|reflexivity].
  - destruct IH as (IHf & IHp & IHn).
    rewrite run_saves_snoc. unfold apply_save. rewrite save_flow_lookup.
    cbn [from_option id form_selectors payment_selectors navigation_steps].
    split; [|split].
    + intros k. rewrite map_app. cbn [map].
      rewrite union_lookup_later_wins, last_supplied_snoc.
      destruct (sc_form c !! k); [reflexivity|apply IHf].
    + intros k. rewrite map_app. cbn [map].
      rewrite union_lookup_later_wins, last_supplied_snoc.
      destruct (default ∅ (sc_payment c) !! k); [reflexivity|apply IHp].
    + rewrite map_app. cbn [map].
      rewrite last_supplied_snoc. destruct (sc_nav c); [reflexivity|apply IHn].
Qed.

(** C1: from no record, after a non-empty sequence of saves the stored
    selector maps give each key the value of the most recent save that
    supplied it (keys a later save omits survive), and the stored steps are
    those of the most recent save that supplied non-null steps ([[]] when
    none did). *)
Theorem C1_merge_invariant (dir : FlowDir) (d : string) (calls : list SaveCall)
    (Hnone : dir !! _flow_path (domain_key d) = None) (Hne : calls <> []) :
  exists fl form pay,
    run_saves dir d calls !! _flow_path (domain_key d) = Some fl
    /\ form_selectors fl = Some form
    /\ payment_selectors fl = Some pay
    /\ (forall k, form !! k = last_supplied (map (fun c => sc_form c !! k) calls))
    /\ (forall k, pay !! k =
                  last_supplied (map (fun c => default ∅ (sc_payment c) !! k) calls))
    /\ navigation_steps fl = Some (default [] (last_supplied (map sc_nav calls))).
Proof.
  destruct (exists_last Hne) as (calls' & c & ->).
  pose proof (run_saves_selectors dir d (calls' ++ [c]) Hnone) as (Hf & Hp & Hn).
  rewrite run_saves_snoc in Hf, Hp, Hn |- *. unfold apply_save in *.
  rewrite save_flow_lookup in Hf, Hp, Hn |- *.
  cbn [from_option id form_selectors payment_selectors navigation_steps] in Hf, Hp, Hn.
  eexists _, _, _. split; [reflexivity|]. split; [reflexivity|]. split; [reflexivity|].
  split; [exact Hf|]. split; [exact Hp|]. cbn [navigation_steps]. by rewrite Hn.
Qed.

Lemma C1_witness :
  ((∅ : FlowDir) !! _flow_path (domain_key "shop.nl") = None
   /\ [save_a; save_b] <> [])
  /\ (exists fl form pay,
       run_saves ∅ "shop.nl" [save_a; save_b] !! _flow_path (domain_key "shop.nl") = Some fl
       /\ form_selectors fl = Some form
       /\ payment_selectors fl = Some pay
       /\ form !! "email" = Some "#mail2"%string
       /\ form !! "city" = Some "#city"%string
       /\ pay !! "card_number" = Some "#cc"%string
       /\ navigation_steps fl =
            Some [click_step "continue" "https://shop.nl/checkout/address"]).
Proof.
  split; [split; [apply lookup_empty | discriminate]|].
  destruct (C1_merge_invariant ∅ "shop.nl" [save_a; save_b] (lookup_empty _) ltac:(discriminate))
    as (fl & form & pay & Hl & Hf & Hp & Hfk & Hpk & Hn).
  exists fl, form, pay.
  split; [exact Hl|]. split; [exact Hf|]. split; [exact Hp|].
  split; [rewrite Hfk; reflexivity|].
  split; [rewrite Hfk; reflexivity|].
  split; [rewrite Hpk; reflexivity|].
  rewrite Hn. reflexivity.
Defined.

(** ** Interleaved saves and failures: the counters *)

Lemma run_events_snoc dir d evs ev :
  run_events dir d (evs ++ [ev]) = step_event d (run_events dir d evs) ev.
Proof. unfold run_events. by rewrite fold_left_app. Qed.

Lemma count_saves_snoc evs ev :
  count_saves (evs ++ [ev]) = (count_saves evs + if is_save ev then 1 else 0)%nat.
Proof.
  unfold count_saves. rewrite filter_app, length_app.
  destruct ev; simpl; reflexivity.
Qed.

Lemma count_failures_snoc evs ev :
  count_failures (evs ++ [ev]) = (count_failures evs + if is_save ev then 0 else 1)%nat.
Proof.
  unfold count_failures. rewrite filter_app, length_app.
  destruct ev; simpl; reflexivity.
Qed.

Lemma count_saves_existsb evs : count_saves evs = O <-> existsb is_save evs = false.
Proof.
  unfold count_saves. induction evs as [|[c|e t] evs IH]; simpl; [tauto| |].
  - split; discriminate.
  - rewrite filter_cons_False by discriminate. exact IH.
Qed.

Lemma from_first_save_snoc evs ev :
  from_first_save (evs ++ [ev]) =
  if existsb is_save evs then from_first_save evs ++ [ev]
  else if is_save ev then [ev] else [].
Proof.
  induction evs as [|[c|e t] evs IH]; simpl.
  - destruct ev; reflexivity.
  - reflexivity.
  - exact IH.
Qed.

Lemma trailing_failures_snoc evs ev :
  trailing_failures (evs ++ [ev]) =
  if is_save ev then O else S (trailing_failures evs).
Proof. unfold trailing_failures. rewrite rev_app_distr. reflexivity. Qed.

Lemma run_events_counters dir d evs :
  dir !! _flow_path (domain_key d) = None ->
  match run_events dir d evs !! _flow_path (domain_key d) with
  | None => existsb is_save evs = false
  | Some fl =>
      existsb is_save evs = true
      /\ success_count fl = Some (Z.of_nat (count_saves evs))
      /\ failure_count fl = Some (Z.of_nat (count_failures (from_first_save evs)))
      /\ consecutive_failures fl = Some (Z.of_nat (trailing_failures evs))
  end.
Proof.
  intros Hnone. induction evs as [|ev evs IH] using rev_ind.
  - unfold run_events. simpl. by rewrite Hnone.
  - rewrite run_events_snoc, existsb_app, count_saves_snoc, from_first_save_snoc,
      trailing_failures_snoc.
    destruct ev as [c|e t]; simpl step_event.
    + unfold apply_save. rewrite save_flow_lookup.
      cbn [from_option id success_count failure_count consecutive_failures is_save].
      destruct (run_events dir d evs !! _flow_path (domain_key d)) as [fl|].
      * destruct IH as (Hex & Hs & Hf & Hc).
        cbn [from_option id success_count failure_count consecutive_failures].
        rewrite Hex, Hs, Hf.
        rewrite count_failures_snoc. simpl. repeat split; f_equal; lia.
      * pose proof (proj2 (count_saves_existsb evs) IH) as H0.
        rewrite IH, H0. simpl. repeat split.
    + rewrite record_failure_lookup.
      destruct (run_events dir d evs !! _flow_path (domain_key d)) as [fl|].
      * destruct IH as (Hex & Hs & Hf & Hc). rewrite Hex, Hs, Hf, Hc.
        rewrite count_failures_snoc. simpl.
        repeat split; f_equal; lia.
      * rewrite IH. reflexivity.
Qed.

(** C4 (counterexample): a failure recorded before the first save is not
    counted, because there is no record yet. *)
Lemma C4_counterexample :
  failure_count <$>
    (run_events ∅ "example.com" [EFail None "t0"; ESave (plain_save "t1")]
       !! "example.com"%string)
  = Some (Some 0)
  /\ count_failures [EFail None "t0"; ESave (plain_save "t1")] = 1%nat.
Proof. split; [vm_compute; reflexivity | reflexivity]. Qed.

(** C4 (amended): from no record, a sequence of saves and failures leaves
    no record when it has no save; otherwise [success_count] is the number
    of saves, [failure_count] the number of failures recorded from the
    first save on, and [consecutive_failures] the length of the run of
    failures ending the sequence. *)
Theorem C4_counter_invariant (dir : FlowDir) (d : string) (evs : list Event)
    (Hnone : dir !! _flow_path (domain_key d) = None) :
  match run_events dir d evs !! _flow_path (domain_key d) with
  | None => count_saves evs = O
  | Some fl =>
      (0 < count_saves evs)%nat
      /\ success_count fl = Some (Z.of_nat (count_saves evs))
      /\ failure_count fl = Some (Z.of_nat (count_failures (from_first_save evs)))
      /\ consecutive_failures fl = Some (Z.of_nat (trailing_failures evs))
  end.
Proof.
  pose proof (run_events_counters dir d evs Hnone) as H.
  destruct (run_events dir d evs !! _flow_path (domain_key d)) as [fl|].
  - destruct H as (Hex & Hs & Hf & Hc). split; [|auto].
    destruct (count_saves evs) eqn:E; [|lia].
    apply count_saves_existsb in E. congruence.
  - by apply count_saves_existsb.
Qed.

Lemma C4_witness :
  (∅ : FlowDir) !! _flow_path (domain_key "example.com") = None
  /\ match run_events ∅ "example.com"
             [EFail None "t0"; ESave (plain_save "t1"); EFail (Some "timeout") "t2"]
             !! _flow_path (domain_key "example.com") with
     | None => count_saves
                 [EFail None "t0"; ESave (plain_save "t1"); EFail (Some "timeout") "t2"] = O
     | Some fl =>
         (0 < count_saves
                [EFail None "t0"; ESave (plain_save "t1"); EFail (Some "timeout") "t2"])%nat
         /\ success_count fl = Some (Z.of_nat (count_saves
              [EFail None "t0"; ESave (plain_save "t1"); EFail (Some "timeout") "t2"]))
         /\ failure_count fl = Some (Z.of_nat (count_failures (from_first_save
              [EFail None "t0"; ESave (plain_save "t1"); EFail (Some "timeout") "t2"])))
         /\ consecutive_failures fl = Some (Z.of_nat (trailing_failures
              [EFail None "t0"; ESave (plain_save "t1"); EFail (Some "timeout") "t2"]))
     end.
Proof.
  split; [reflexivity|].
  apply (C4_counter_invariant ∅ "example.com"
           [EFail None "t0"; ESave (plain_save "t1"); EFail (Some "timeout") "t2"]).
  reflexivity.
Defined.

(** ** Domain keys *)

Ltac ascii_cases := intros [[] [] [] [] [] [] [] []]; vm_compute; reflexivity.

Lemma scheme_char_facts (c : ascii) :
  implb (UrlParse.is_scheme_char c)
    (negb (Ascii.eqb ":" c) && negb (UrlParse.is_unsafe_url_byte c)) = true.
Proof. revert c. ascii_cases. Qed.

Lemma host_char_facts (c : ascii) :
  implb (url_host_char c)
    (negb (UrlParse.is_netloc_delim c) && negb (UrlParse.is_unsafe_url_byte c)
     && negb (Ascii.eqb "@" c) && negb (Ascii.eqb "[" c)
     && negb (Ascii.eqb ":" c) && negb (Ascii.eqb "%" c)) = true.
Proof. revert c. ascii_cases. Qed.

Lemma alpha_not_c0 (c : ascii) :
  implb (UrlParse.is_ascii_alpha c) (negb (UrlParse.is_c0_control_or_space c)) = true.
Proof. revert c. ascii_cases. Qed.

Lemma all_chars_weaken (p q : ascii -> bool) (s : string) :
  (forall c, p c = true -> q c = true) ->
  UrlParse.all_chars p s = true -> UrlParse.all_chars q s = true.
Proof.
  intros Hpq. induction s as [|c s IH]; simpl; [done|].
  rewrite !andb_true_iff. intros [H1 H2]. auto.
Qed.

Lemma contains_char_app (x : ascii) (a b : string) :
  Py.contains_char x (a ++ b)%string = Py.contains_char x a || Py.contains_char x b.
Proof. induction a as [|c a IH]; simpl; [done|]. by rewrite IH, orb_assoc. Qed.

Lemma contains_char_none (x : ascii) (s : string) :
  UrlParse.all_chars (fun c => negb (Ascii.eqb x c)) s = true ->
  Py.contains_char x s = false.
Proof.
  induction s as [|c s IH]; simpl; [done|].
  rewrite andb_true_iff, negb_true_iff. intros [-> H]. auto.
Qed.

Lemma remove_chars_app (p : ascii -> bool) (a b : string) :
  Py.remove_chars p (a ++ b)%string = (Py.remove_chars p a ++ Py.remove_chars p b)%string.
Proof. induction a as [|c a IH]; simpl; [done|]. destruct (p c); simpl; by rewrite IH. Qed.

Lemma remove_chars_none (p : ascii -> bool) (s : string) :
  UrlParse.all_chars (fun c => negb (p c)) s = true -> Py.remove_chars p s = s.
Proof.
  induction s as [|c s IH]; simpl; [done|].
  rewrite andb_true_iff, negb_true_iff. intros [-> H]. by rewrite IH.
Qed.

Lemma find_first (x : ascii) (a t : string) :
  Py.contains_char x a = false ->
  Py.find x (a ++ String x t)%string = Some (String.length a).
Proof.
  induction a as [|c a IH]; simpl.
  - by rewrite Ascii.eqb_refl.
  - rewrite orb_false_iff. intros [-> H]. by rewrite IH.
Qed.

Lemma take_append (a t : string) : Py.take (String.length a) (a ++ t)%string = a.
Proof. induction a as [|c a IH]; simpl; [done|]. by rewrite IH. Qed.

Lemma netloc_prefix_app (a t : string) :
  UrlParse.all_chars (fun c => negb (UrlParse.is_netloc_delim c)) a = true ->
  UrlParse.netloc_prefix (a ++ t)%string = (a ++ UrlParse.netloc_prefix t)%string.
Proof.
  induction a as [|c a IH]; simpl; [done|].
  rewrite andb_true_iff, negb_true_iff. intros [-> H]. by rewrite IH.
Qed.

Lemma partition_none (x : ascii) (s : string) :
  Py.contains_char x s = false -> Py.partition x s = (s, None).
Proof.
  induction s as [|c s IH]; simpl; [done|].
  rewrite orb_false_iff. intros [-> H]. by rewrite IH.
Qed.

Lemma rpartition_tail_none (x : ascii) (s : string) :
  Py.contains_char x s = false -> Py.rpartition_tail x s = s.
Proof.
  destruct s as [|c s]; simpl; [done|].
  rewrite orb_false_iff. intros [-> H]. by rewrite H.
Qed.

Lemma netloc_prefix_rest (rest : string) :
  match rest with
  | EmptyString => True
  | String c _ => UrlParse.is_netloc_delim c = true
  end ->
  UrlParse.netloc_prefix (Py.remove_chars UrlParse.is_unsafe_url_byte rest) = ""%string.
Proof.
  destruct rest as [|c r]; [done|]. intros Hc. simpl.
  assert (Hu : UrlParse.is_unsafe_url_byte c = false).
  { revert Hc. revert c. intros [[] [] [] [] [] [] [] []]; vm_compute; congruence. }
  rewrite Hu. simpl. by rewrite Hc.
Qed.

Lemma host_char_imp (c : ascii) :
  url_host_char c = true ->
  negb (UrlParse.is_netloc_delim c) = true /\ negb (UrlParse.is_unsafe_url_byte c) = true
  /\ negb (Ascii.eqb "@" c) = true /\ negb (Ascii.eqb "[" c) = true
  /\ negb (Ascii.eqb ":" c) = true /\ negb (Ascii.eqb "%" c) = true.
Proof.
  intros H. pose proof (host_char_facts c) as F. rewrite H in F. cbn [implb] in F.
  rewrite !andb_true_iff in F. tauto.
Qed.

Lemma scheme_char_imp (c : ascii) :
  UrlParse.is_scheme_char c = true ->
  negb (Ascii.eqb ":" c) = true /\ negb (UrlParse.is_unsafe_url_byte c) = true.
Proof.
  intros H. pose proof (scheme_char_facts c) as F. rewrite H in F. cbn [implb] in F.
  by apply andb_true_iff in F.
Qed.

Lemma drop_after (a t : string) (x : ascii) :
  Py.drop (S (String.length a)) (a ++ String x t)%string = t.
Proof. induction a as [|c a IH]; simpl; [done|]. exact IH. Qed.


Lemma append_empty_r (s : string) : (s ++ "")%string = s.
Proof. induction s as [|c s IH]; [reflexivity|]. exact (f_equal (String c) IH). Qed.

Lemma string_cons_app (x : ascii) (a b : string) :
  (String x a ++ b)%string = String x (a ++ b).
Proof. reflexivity. Qed.

Lemma strip_scheme_ok (c0 : ascii) (scheme t : string) :
  UrlParse.is_ascii_alpha c0 = true ->
  UrlParse.all_chars UrlParse.is_scheme_char scheme = true ->
  UrlParse.strip_scheme (String c0 scheme ++ String ":" t)%string = t.
Proof.
  intros Hc0 Hsch.
  assert (Hall : UrlParse.all_chars UrlParse.is_scheme_char (String c0 scheme) = true).
  { simpl. rewrite Hsch, andb_true_r. unfold UrlParse.is_scheme_char. by rewrite Hc0. }
  unfold UrlParse.strip_scheme.
  rewrite find_first.
  - lazy beta iota. rewrite take_append, drop_after.
    change (String c0 scheme ++ String ":" t)%string with (String c0 (scheme ++ String ":" t)).
    lazy beta iota. rewrite Hc0, Hall. reflexivity.
  - apply contains_char_none. revert Hall. apply all_chars_weaken.
    intros c Hc. apply (scheme_char_imp c Hc).
Qed.

Lemma urlsplit_netloc_ok (c0 : ascii) (scheme host rest : string) :
  UrlParse.is_ascii_alpha c0 = true ->
  UrlParse.all_chars UrlParse.is_scheme_char scheme = true ->
  UrlParse.all_chars url_host_char host = true ->
  match rest with
  | EmptyString => True
  | String c _ => UrlParse.is_netloc_delim c = true
  end ->
  UrlParse.urlsplit_netloc (String c0 scheme ++ "://" ++ host ++ rest)%string = host.
Proof.
  intros Hc0 Hsch Hhost Hrest. unfold UrlParse.urlsplit_netloc. cbv zeta.
  assert (Hnc0 : UrlParse.is_c0_control_or_space c0 = false).
  { pose proof (alpha_not_c0 c0) as F. rewrite Hc0 in F. cbn [implb] in F.
    by apply negb_true_iff. }
  assert (L : forall y, Py.lstrip UrlParse.is_c0_control_or_space (String c0 scheme ++ y)%string
                        = (String c0 scheme ++ y)%string).
  { intros y. change (String c0 scheme ++ y)%string with (String c0 (scheme ++ y)).
    cbn [Py.lstrip]. by rewrite Hnc0. }
  rewrite L, !remove_chars_app.
  rewrite (remove_chars_none _ (String c0 scheme)).
  2:{ simpl. rewrite andb_true_iff. split.
      - pose proof (scheme_char_imp c0) as F. unfold UrlParse.is_scheme_char in F.
        rewrite Hc0 in F. apply F. reflexivity.
      - revert Hsch. apply all_chars_weaken. intros c Hc. apply (scheme_char_imp c Hc). }
  rewrite (remove_chars_none _ host).
  2:{ revert Hhost. apply all_chars_weaken. intros c Hc. apply (host_char_imp c Hc). }
  change (Py.remove_chars UrlParse.is_unsafe_url_byte "://") with (String ":" "//").
  rewrite (string_cons_app ":" "//").
  rewrite strip_scheme_ok by assumption.
  unfold Py.startswith. rewrite prefix_append.
  change 2%nat with (String.length "//"). rewrite drop_append.
  rewrite netloc_prefix_app, netloc_prefix_rest by
    (try assumption; revert Hhost; apply all_chars_weaken; intros c Hc;
     apply (host_char_imp c Hc)).
  apply append_empty_r.
Qed.

Lemma hostinfo_hostname_plain (host : string) :
  UrlParse.all_chars url_host_char host = true ->
  UrlParse.hostinfo_hostname host = host
  /\ Py.partition "%" host = (host, None).
Proof.
  intros Hhost.
  assert (Hno : forall x, (forall c, url_host_char c = true -> negb (Ascii.eqb x c) = true) ->
                          Py.contains_char x host = false).
  { intros x Hx. apply contains_char_none. revert Hhost. apply all_chars_weaken. exact Hx. }
  unfold UrlParse.hostinfo_hostname.
  rewrite rpartition_tail_none by (apply Hno; intros c Hc; apply (host_char_imp c Hc)).
  rewrite (partition_none "[") by (apply Hno; intros c Hc; apply (host_char_imp c Hc)).
  rewrite (partition_none ":") by (apply Hno; intros c Hc; apply (host_char_imp c Hc)).
  rewrite (partition_none "%") by (apply Hno; intros c Hc; apply (host_char_imp c Hc)).
  split; reflexivity.
Qed.

(** C8 (counterexample): a bare domain is used as given, neither
    lower-cased nor stripped of [www.], so one site gets two keys. *)
Lemma C8_counterexample :
  domain_key "WWW.Example.com" = "WWW.Example.com"%string
  /\ domain_key "https://www.example.com/" = "example.com"%string.
Proof. split; reflexivity. Qed.

Lemma host_char_no_bracket (c : ascii) :
  implb (url_host_char c) (negb (Ascii.eqb "[" c) && negb (Ascii.eqb "]" c)) = true.
Proof. revert c. ascii_cases. Qed.

Lemma urlsplit_ok_plain (chk : string -> bool) (c0 : ascii) (scheme host rest : string) :
  UrlParse.is_ascii_alpha c0 = true ->
  UrlParse.all_chars UrlParse.is_scheme_char scheme = true ->
  UrlParse.all_chars url_host_char host = true ->
  match rest with
  | EmptyString => True
  | String c _ => UrlParse.is_netloc_delim c = true
  end ->
  UrlParse.urlsplit_ok chk (String c0 scheme ++ "://" ++ host ++ rest)%string = true.
Proof.
  intros Hc0 Hsch Hhost Hrest. unfold UrlParse.urlsplit_ok.
  rewrite urlsplit_netloc_ok by assumption.
  assert (Hb : forall c, url_host_char c = true ->
                         negb (Ascii.eqb "[" c) = true /\ negb (Ascii.eqb "]" c) = true).
  { intros c Hc. pose proof (host_char_no_bracket c) as F. rewrite Hc in F.
    cbn [implb] in F. by apply andb_true_iff in F. }
  assert (Ho : Py.contains_char "[" host = false).
  { apply contains_char_none. revert Hhost. apply all_chars_weaken.
    intros c Hc. apply (Hb c Hc). }
  assert (Hcl : Py.contains_char "]" host = false).
  { apply contains_char_none. revert Hhost. apply all_chars_weaken.
    intros c Hc. apply (Hb c Hc). }
  rewrite Ho, Hcl. reflexivity.
Qed.

Lemma domain_key_or_error_some (chk : string -> bool) (s k : string) :
  domain_key_or_error chk s = Some k -> domain_key s = k.
Proof.
  unfold domain_key_or_error, _domain_from_url_or_error, domain_key.
  destruct (Py.contains_char "/" s); [destruct (UrlParse.urlsplit_ok chk s)|];
    congruence.
Qed.

(** C8 (amended): an input without [/] is used verbatim as the key; an
    input with [/] is keyed by [urlparse(...).hostname] (lower-cased by
    [str.lower], [''] when there is none) with one leading [www.] removed,
    and the operation raises [ValueError] instead when [urlparse] rejects
    the netloc (unbalanced square brackets, or a bracketed part that
    [_check_bracketed_netloc] refuses); so a URL [scheme://host...] with a
    plain host (no user info, port, brackets or zone) is keyed by the
    lower-cased host without a leading [www.]. Whenever a key is computed,
    it is the [domain_key] the store operations use. *)
Theorem C8_domain_key (chk : string -> bool) (c0 : ascii) (scheme host rest : string)
    (Hc0 : UrlParse.is_ascii_alpha c0 = true)
    (Hsch : UrlParse.all_chars UrlParse.is_scheme_char scheme = true)
    (Hhost : UrlParse.all_chars url_host_char host = true)
    (Hrest : match rest with
             | EmptyString => True
             | String c _ => UrlParse.is_netloc_delim c = true
             end) :
  (forall s, Py.contains_char "/" s = false -> domain_key_or_error chk s = Some s)
  /\ (forall s, Py.contains_char "/" s = true ->
        domain_key_or_error chk s =
          if UrlParse.urlsplit_ok chk s
          then Some (strip_www (match UrlParse.hostname s with
                                | Some h => h
                                | None => ""%string
                                end))
          else None)
  /\ domain_key_or_error chk (String c0 scheme ++ "://" ++ host ++ rest)%string
       = Some (strip_www (Py.lower host))
  /\ (forall s k, domain_key_or_error chk s = Some k -> domain_key s = k).
Proof.
  split; [|split; [|split]].
  - intros s Hs. unfold domain_key_or_error. by rewrite Hs.
  - intros s Hs. unfold domain_key_or_error, _domain_from_url_or_error, _domain_from_url.
    rewrite Hs. reflexivity.
  - unfold domain_key_or_error, _domain_from_url_or_error.
    replace (Py.contains_char "/" (String c0 scheme ++ "://" ++ host ++ rest)%string) with true
      by (rewrite contains_char_app; simpl; by rewrite orb_true_r).
    rewrite urlsplit_ok_plain by assumption.
    f_equal. unfold _domain_from_url, UrlParse.hostname.
    rewrite urlsplit_netloc_ok by assumption.
    destruct (hostinfo_hostname_plain host Hhost) as [-> ->].
    destruct (String.eqb_spec host "") as [->|_]; reflexivity.
  - exact (domain_key_or_error_some chk).
Qed.

Lemma C8_witness :
  (UrlParse.is_ascii_alpha "h" = true
   /\ UrlParse.all_chars UrlParse.is_scheme_char "ttp" = true
   /\ UrlParse.all_chars url_host_char ("WWW." ++ String "200" "lan.nl")%string = true
   /\ UrlParse.is_netloc_delim "/" = true)
  /\ domain_key_or_error (fun _ => true)
       ("http://" ++ ("WWW." ++ String "200" "lan.nl") ++ "/x")%string
     = Some (String "232" "lan.nl")
  /\ domain_key_or_error (fun _ => true) "http://[x/" = None
  /\ domain_key_or_error (fun _ => true) "WWW.Example.com" = Some "WWW.Example.com"%string.
Proof.
  split; [repeat split; reflexivity|].
  destruct (C8_domain_key (fun _ => true) "h" "ttp" ("WWW." ++ String "200" "lan.nl") "/x"
              eq_refl eq_refl eq_refl eq_refl) as (H1 & H2 & H3 & _).
  split; [|split].
  - transitivity (Some (strip_www (Py.lower ("WWW." ++ String "200" "lan.nl")%string)));
      [exact H3 | reflexivity].
  - rewrite (H2 "http://[x/" eq_refl). reflexivity.
  - exact (H1 "WWW.Example.com" eq_refl).
Defined.

(* ================================================================== *)
(** * Further properties of the flow store and the checkout agent *)

(** ** [delete_flow] *)

(** Deleting right after saving a domain that had no flow file restores
    the directory, and reports the deletion. *)
Theorem delete_after_save (dir : FlowDir) d form pay nav pat plat url now
    (Hnew : dir !! _flow_path (domain_key d) = None) :
  delete_flow (save_flow dir d form pay nav pat plat url now) d = (dir, true).
Proof.
  unfold delete_flow. rewrite save_flow_lookup.
  f_equal. unfold save_flow. cbn zeta.
  apply delete_insert_id. exact Hnew.
Qed.

Lemma delete_after_save_witness :
  (∅ : FlowDir) !! _flow_path (domain_key "shop.nl") = None /\
  delete_flow (save_flow ∅ "shop.nl" ∅ None None None None None "t") "shop.nl" = (∅, true).
Proof.
  split; [reflexivity|].
  apply (delete_after_save ∅ "shop.nl" ∅ None None None None None "t").
  reflexivity.
Defined.

(** ** [record_failure] *)

(** [record_failure] never creates a flow file: the set of files is the
    same before and after. *)
Theorem record_failure_never_creates (dir : FlowDir) d error now (p : string) :
  is_Some (record_failure dir d error now !! p) <-> is_Some (dir !! p).
Proof.
  unfold record_failure. cbn zeta.
  destruct (dir !! _flow_path (domain_key d)) as [f|] eqn:E; [|reflexivity].
  destruct (decide (p = _flow_path (domain_key d))) as [->|Hne].
  - rewrite lookup_insert_eq, E. split; intros _; eauto.
  - rewrite lookup_insert_ne by congruence. reflexivity.
Qed.

(** ** Flow file names *)

Lemma replace_char_absent (a b : ascii) (s : string) :
  Py.contains_char a s = false -> Py.replace_char a b s = s.
Proof.
  induction s as [|c r IH]; [reflexivity|].
  cbn [Py.contains_char Py.replace_char]. intros H.
  apply orb_false_iff in H as [H1 H2].
  destruct (Ascii.eqb c a) eqn:E.
  - apply Ascii.eqb_eq in E. subst. rewrite Ascii.eqb_refl in H1. discriminate.
  - rewrite (IH H2). reflexivity.
Qed.

Lemma replace_char_twice (a b : ascii) (s : string) :
  Py.replace_char a b (Py.replace_char a b s) = Py.replace_char a b s.
Proof.
  induction s as [|c r IH]; [reflexivity|].
  cbn [Py.replace_char]. rewrite IH.
  destruct (Ascii.eqb c a) eqn:E; [|rewrite E; reflexivity].
  destruct (Ascii.eqb b a); reflexivity.
Qed.

Lemma contains_replace_other (x a b : ascii) (s : string) :
  Ascii.eqb x a = false -> Ascii.eqb x b = false ->
  Py.contains_char x (Py.replace_char a b s) = Py.contains_char x s.
Proof.
  intros Ha Hb.
  induction s as [|c r IH]; [reflexivity|].
  cbn [Py.replace_char Py.contains_char]. rewrite IH.
  destruct (Ascii.eqb c a) eqn:E; [|reflexivity].
  apply Ascii.eqb_eq in E. subst. rewrite Ha, Hb. reflexivity.
Qed.

(** Two domain names without [/] that differ only in [:] against [_]
    share one flow file: what is stored for [localhost:3000] is loaded for
    [localhost_3000]. *)
Theorem flow_path_colon_collision (dir : FlowDir) (d : string)
    (Hd : Py.contains_char "/" d = false) :
  stored_flow dir (Py.replace_char ":" "_" d) = stored_flow dir d.
Proof.
  unfold stored_flow, domain_key, _flow_path.
  rewrite contains_replace_other by reflexivity. rewrite Hd.
  rewrite (replace_char_absent "/" "_" (Py.replace_char ":" "_" d))
    by (rewrite contains_replace_other by reflexivity; exact Hd).
  rewrite replace_char_twice, (replace_char_absent "/" "_" d Hd). reflexivity.
Qed.

Lemma flow_path_colon_collision_witness :
  Py.contains_char "/" "localhost:3000" = false /\
  stored_flow (save_flow ∅ "localhost:3000" ∅ None None None None None "t")
    (Py.replace_char ":" "_" "localhost:3000") =
  stored_flow (save_flow ∅ "localhost:3000" ∅ None None None None None "t") "localhost:3000".
Proof.
  split; [reflexivity|].
  apply (flow_path_colon_collision _ "localhost:3000"). reflexivity.
Defined.

(** ** Health check and the run's starting state *)

Lemma threshold_status_cases (flow : Flow) :
  threshold_status flow = "healthy"%string \/ threshold_status flow = "degraded"%string
  \/ threshold_status flow = "broken"%string.
Proof.
  unfold threshold_status. cbn zeta.
  repeat match goal with |- context [if ?b then _ else _] => destruct b end; tauto.
Qed.

(** With non-negative counters and fewer than three runs, the status is
    never [degraded] or [broken]: it is [healthy] unless consecutive
    failures force [needs_relearn]. *)
Theorem health_few_runs (flow : Flow)
    (Hs : 0 <= default 0 (success_count flow))
    (Hf : 0 <= default 0 (failure_count flow))
    (Ht : total_runs flow < 3) :
  h_status (check_flow_health flow) = "healthy"%string \/
  h_status (check_flow_health flow) = "needs_relearn"%string.
Proof.
  unfold check_flow_health. cbn [h_status].
  destruct (2 <=? default 0 (consecutive_failures flow)); [right; reflexivity|left].
  unfold threshold_status. cbn zeta.
  unfold total_runs in Ht.
  replace (3 <=? total_runs flow) with false
    by (symmetry; apply Z.leb_gt; unfold total_runs; lia).
  replace (3 <=? default 0 (failure_count flow)) with false
    by (symmetry; apply Z.leb_gt; lia).
  reflexivity.
Qed.

Lemma health_few_runs_witness :
  (0 <= default 0 (success_count (flow_with_counts 1 1 0)) /\
   0 <= default 0 (failure_count (flow_with_counts 1 1 0)) /\
   total_runs (flow_with_counts 1 1 0) < 3) /\
  (h_status (check_flow_health (flow_with_counts 1 1 0)) = "healthy"%string \/
   h_status (check_flow_health (flow_with_counts 1 1 0)) = "needs_relearn"%string).
Proof.
  split; [unfold total_runs; simpl; lia|].
  apply health_few_runs; unfold total_runs; simpl; lia.
Defined.

(** A flow that was just saved is never flagged for re-learning: its
    consecutive-failure count is [0] and its status is one of the
    threshold statuses, whatever the stored history was. *)
Theorem health_after_save (dir : FlowDir) d form pay nav pat plat url now :
  match stored_flow (save_flow dir d form pay nav pat plat url now) d with
  | Some f =>
      h_needs_relearn (check_flow_health f) = false /\
      h_consecutive_failures (check_flow_health f) = 0 /\
      h_status (check_flow_health f) <> "needs_relearn"%string
  | None => False
  end.
Proof.
  unfold stored_flow. rewrite save_flow_lookup. cbn zeta.
  unfold check_flow_health. cbn [h_needs_relearn h_consecutive_failures h_status
    consecutive_failures failure_after_success last_failure from_option id].
  split; [reflexivity|]. split; [reflexivity|].
  match goal with
  | |- context [threshold_status ?f] => destruct (threshold_status_cases f) as [H|[H|H]]
  end; rewrite H; discriminate.
Qed.

Lemma flow_truthy_failure (f : Flow) (z : Z) :
  failure_count f = Some z -> flow_truthy f = true.
Proof.
  destruct f as [a b c d e g h i j k l m n]. cbn [failure_count]. intros ->.
  destruct a, b, c, d, e, g, h; reflexivity.
Qed.

(** On the next run after a save, [run_checkout] replays exactly the
    navigation steps that were saved, and fills forms with the saved
    selectors merged under the request's own ones. *)
Theorem plan_after_save (dir : FlowDir) d form pay steps pat plat url now
    req_form req_pay :
  let old := default empty_flow (stored_flow dir d) in
  checkout_plan (stored_flow (save_flow dir d form pay (Some steps) pat plat url now) d)
    req_form req_pay =
  mkPlan (default ∅ req_form ∪ (form ∪ default ∅ (form_selectors old)))
         (default ∅ req_pay ∪ (default ∅ pay ∪ default ∅ (payment_selectors old)))
         steps.
Proof.
  cbn zeta. unfold stored_flow. rewrite save_flow_lookup. cbn zeta.
  reflexivity.
Qed.

(** After two failed runs in a row, the next run replays no saved
    navigation step (the flow needs re-learning) but still fills forms
    with the saved selectors. *)
Theorem plan_after_two_failures (dir : FlowDir) d e1 e2 t1 t2 (flow : Flow)
    req_form req_pay
    (Hstored : stored_flow dir d = Some flow)
    (Hcount : 0 <= default 0 (consecutive_failures flow)) :
  checkout_plan (stored_flow (record_failure (record_failure dir d e1 t1) d e2 t2) d)
    req_form req_pay =
  mkPlan (default ∅ req_form ∪ default ∅ (form_selectors flow))
         (default ∅ req_pay ∪ default ∅ (payment_selectors flow)) [].
Proof.
  unfold stored_flow in *.
  rewrite record_failure_lookup, record_failure_lookup, Hstored.
  unfold checkout_plan.
  rewrite (flow_truthy_failure _ (default 0 (Some (default 0 (failure_count flow) + 1)) + 1))
    by reflexivity.
  unfold check_flow_health. cbn [h_needs_relearn consecutive_failures from_option id
    form_selectors payment_selectors].
  replace (2 <=? default 0 (consecutive_failures flow) + 1 + 1) with true
    by (symmetry; apply Z.leb_le; lia).
  rewrite orb_true_r. reflexivity.
Qed.

Lemma plan_after_two_failures_witness :
  (stored_flow (<["shop.nl" := learned_flow]> ∅) "shop.nl" = Some learned_flow /\
   0 <= default 0 (consecutive_failures learned_flow)) /\
  checkout_plan (stored_flow (<["shop.nl" := learned_flow]> ∅) "shop.nl") None None =
    mkPlan (<["email" := "#email"]> ∅) (<["card_number" := "#cc"]> ∅)
           [click_step "add_to_cart" "https://shop.nl/p"] /\
  checkout_plan (stored_flow (record_failure (record_failure
      (<["shop.nl" := learned_flow]> ∅) "shop.nl" (Some "timeout") "t1")
      "shop.nl" (Some "timeout") "t2") "shop.nl") None None =
    mkPlan (<["email" := "#email"]> ∅) (<["card_number" := "#cc"]> ∅) [].
Proof.
  split; [split; [reflexivity | simpl; lia]|].
  split; [vm_compute; reflexivity|].
  assert (Hs : stored_flow (<["shop.nl" := learned_flow]> ∅) "shop.nl" = Some learned_flow)
    by reflexivity.
  assert (Hc : 0 <= default 0 (consecutive_failures learned_flow)) by (simpl; lia).
  rewrite (plan_after_two_failures (<["shop.nl" := learned_flow]> ∅) "shop.nl"
             (Some "timeout") (Some "timeout") "t1" "t2" learned_flow None None Hs Hc).
  reflexivity.
Defined.

(** ** [list_flows] *)

Lemma summarize_raises fn j e :
  ListFlows.summarize fn j = LoadFlow.Raise e -> LoadFlow.caught e = false.
Proof.
  unfold ListFlows.summarize, LoadFlow.dict_get.
  destruct j; cbn [LoadFlow.bind]; try (intros H; injection H as <-; reflexivity).
  unfold LoadFlow.py_len.
  intros Hs. revert Hs.
  repeat (case_match; cbn [LoadFlow.bind]); intros Hs; try discriminate;
    injection Hs as <-; reflexivity.
Qed.

(** When [list_flows] returns, it has one summary per [.json] file that
    was read and decoded: files that fail to read or decode are skipped,
    other names are ignored. *)
Theorem list_flows_length entries l
    (H : ListFlows.list_flows (Some entries) = LoadFlow.Ok l) :
  length l = length (List.filter ListFlows.decoded_json_file entries).
Proof.
  revert l H. cbn [ListFlows.list_flows].
  induction entries as [|[fn o] rest IH]; intros l H.
  - injection H as <-. reflexivity.
  - cbn [ListFlows.list_flows_go List.filter] in *.
    unfold ListFlows.decoded_json_file at 1. cbn [fst snd].
    destruct (PyStr.endswith ".json" fn); cbn [negb andb] in *; [|exact (IH l H)].
    destruct o as [j|e]; cbn [LoadFlow.bind] in H.
    + destruct (ListFlows.summarize fn j) as [s|e] eqn:E.
      * destruct (ListFlows.list_flows_go rest) as [r|e] eqn:R; cbn in H; [|discriminate].
        injection H as <-. cbn [length]. f_equal. exact (IH r eq_refl).
      * rewrite (summarize_raises _ _ _ E) in H. discriminate.
    + destruct (LoadFlow.caught e); [exact (IH l H) | discriminate].
Qed.

Lemma list_flows_witness :
  ListFlows.list_flows (Some [("a.json", LoadFlow.Ok (LoadFlow.JObj []));
                              ("b.json", LoadFlow.Raise LoadFlow.JSONDecodeError);
                              ("notes.txt", LoadFlow.Ok LoadFlow.JNull)]) =
    LoadFlow.Ok [ListFlows.mkSummary (LoadFlow.JStr "a") (LoadFlow.JStr "unknown")
                   (LoadFlow.JInt 0) LoadFlow.JNull 0 0 0] /\
  length [ListFlows.mkSummary (LoadFlow.JStr "a") (LoadFlow.JStr "unknown")
            (LoadFlow.JInt 0) LoadFlow.JNull 0 0 0] =
  length (List.filter ListFlows.decoded_json_file
            [("a.json", LoadFlow.Ok (LoadFlow.JObj []));
             ("b.json", LoadFlow.Raise LoadFlow.JSONDecodeError);
             ("notes.txt", LoadFlow.Ok LoadFlow.JNull)]).
Proof.
  split; [vm_compute; reflexivity|].
  apply list_flows_length. vm_compute. reflexivity.
Defined.

Lemma list_flows_go_app_raise pre rest l e :
  ListFlows.list_flows_go pre = LoadFlow.Ok l ->
  ListFlows.list_flows_go rest = LoadFlow.Raise e ->
  ListFlows.list_flows_go (pre ++ rest) = LoadFlow.Raise e.
Proof.
  revert l. induction pre as [|[fn o] pre' IH]; intros l Hpre Hrest.
  - exact Hrest.
  - cbn [app ListFlows.list_flows_go] in *.
    destruct (negb (PyStr.endswith ".json" fn)); [exact (IH l Hpre Hrest)|].
    destruct (LoadFlow.bind o (ListFlows.summarize fn)) as [s|e'].
    + destruct (ListFlows.list_flows_go pre') as [r|e''] eqn:R; cbn in Hpre; [|discriminate].
      rewrite (IH r eq_refl Hrest). reflexivity.
    + destruct (LoadFlow.caught e'); [exact (IH l Hpre Hrest) | discriminate].
Qed.

(** An error other than a decoding or I/O error, met on a [.json] file
    (a document that is not an object, a count field without a length,
    text that is not UTF-8), is not caught: [list_flows] raises it
    instead of listing the other flows. *)
Theorem list_flows_propagates pre fn o post e l
    (Hpre : ListFlows.list_flows_go pre = LoadFlow.Ok l)
    (Hjson : PyStr.endswith ".json" fn = true)
    (Hraise : LoadFlow.bind o (ListFlows.summarize fn) = LoadFlow.Raise e)
    (Hunc : LoadFlow.caught e = false) :
  ListFlows.list_flows (Some (pre ++ (fn, o) :: post)) = LoadFlow.Raise e.
Proof.
  cbn [ListFlows.list_flows]. apply (list_flows_go_app_raise pre _ l); [exact Hpre|].
  cbn [ListFlows.list_flows_go]. rewrite Hjson, Hraise, Hunc. reflexivity.
Qed.

Lemma list_flows_propagates_witness :
  (ListFlows.list_flows_go [] = LoadFlow.Ok [] /\
   PyStr.endswith ".json" "shop.nl.json" = true /\
   LoadFlow.bind (LoadFlow.Ok (LoadFlow.JArr [])) (ListFlows.summarize "shop.nl.json") =
     LoadFlow.Raise LoadFlow.AttributeError /\
   LoadFlow.caught LoadFlow.AttributeError = false) /\
  ListFlows.list_flows (Some ([] ++ ("shop.nl.json", LoadFlow.Ok (LoadFlow.JArr [])) ::
                               [("other.json", LoadFlow.Ok (LoadFlow.JObj []))])) =
    LoadFlow.Raise LoadFlow.AttributeError.
Proof.
  split; [repeat split; vm_compute; reflexivity|].
  apply (list_flows_propagates [] _ _ _ _ []); vm_compute; reflexivity.
Defined.

(** ** Step extraction *)

(** [_guess_purpose] answers [confirm] only for a text that contains
    [bevestigen] or [confirm]: the [accept] keyword of that branch is
    unreachable, since any text containing it is a cookie consent. *)
Theorem guess_purpose_confirm_keywords (text : string)
    (H : _guess_purpose text = "confirm"%string) :
  PyStr.contains "bevestigen" (PyStr.lower text) = true \/
  PyStr.contains "confirm" (PyStr.lower text) = true.
Proof.
  revert H. unfold _guess_purpose, any_in. cbn zeta. cbn [existsb].
  set (t := PyStr.lower text).
  destruct (PyStr.contains "bevestigen" t), (PyStr.contains "confirm" t),
           (PyStr.contains "accept" t); cbn [orb]; try tauto;
  repeat match goal with |- context [if ?b then _ else _] => destruct b end;
  discriminate.
Qed.

Lemma guess_purpose_confirm_keywords_witness :
  _guess_purpose "Bestelling bevestigen" = "confirm"%string /\
  (PyStr.contains "bevestigen" (PyStr.lower "Bestelling bevestigen") = true \/
   PyStr.contains "confirm" (PyStr.lower "Bestelling bevestigen") = true).
Proof.
  split; [vm_compute; reflexivity|].
  apply guess_purpose_confirm_keywords. vm_compute. reflexivity.
Defined.

Lemma min2_not_above (x s : LoadFlow.Json) :
  Extract.min2 x = LoadFlow.Ok s -> Extract.two_lt s = LoadFlow.Ok false.
Proof.
  unfold Extract.min2.
  destruct x as [|b|z|f|str|l|kvs]; cbn [Extract.two_lt LoadFlow.bind]; intros H;
    try discriminate.
  - injection H as <-. reflexivity.
  - destruct (2 <? z) eqn:E; injection H as <-; [reflexivity|].
    cbn [Extract.two_lt]. rewrite E. reflexivity.
  - destruct (SFltb (PyFloat.of_int 2) f) eqn:E; injection H as <-; [reflexivity|].
    cbn [Extract.two_lt]. rewrite E. reflexivity.
Qed.

Lemma extract_step_shape urls i st a st' :
  Extract.extract_step urls i st a = LoadFlow.Ok st' ->
  st' = st
  \/ (exists c, existsb (String.eqb (Extract.dedup_key c)) (fst st) = false
        /\ c_tag c <> "input"%string /\ c_tag c <> "textarea"%string
        /\ c_tag c <> "select"%string
        /\ (c_text c <> ""%string \/ c_purpose c <> "other"%string)
        /\ st' = (Extract.dedup_key c :: fst st, snd st ++ [Extract.XClick c]))
  \/ (exists x, (forall c, x <> Extract.XClick c)
        /\ (forall j, x = Extract.XWait j -> Extract.two_lt j = LoadFlow.Ok false)
        /\ st' = (fst st, snd st ++ [x])).
Proof.
  destruct st as [seen steps]. unfold Extract.extract_step. cbv beta iota zeta.
  cbn [fst snd].
  destruct (existsb _ _); [intros H; injection H as <-; left; reflexivity|].
  destruct (Extract.has_key a "click").
  - destruct (Extract.a_interacted a) as [el|];
      [|intros H; injection H as <-; left; reflexivity].
    destruct (_build_step_from_element _ _ _) as [c|];
      [|intros H; injection H as <-; left; reflexivity].
    destruct (String.eqb (c_text c) "" && String.eqb (c_purpose c) "other") eqn:E1;
      [intros H; injection H as <-; left; reflexivity|].
    destruct (String.eqb (c_tag c) "span" && String.eqb (c_purpose c) "other");
      [intros H; injection H as <-; left; reflexivity|].
    destruct (String.eqb (c_tag c) "input" || String.eqb (c_tag c) "textarea"
              || String.eqb (c_tag c) "select") eqn:E3;
      [intros H; injection H as <-; left; reflexivity|].
    destruct (existsb (String.eqb (Extract.dedup_key c)) seen) eqn:E4;
      [intros H; injection H as <-; left; reflexivity|].
    intros H; injection H as <-. right; left. exists c.
    apply orb_false_iff in E3 as [E3 E5]. apply orb_false_iff in E3 as [E3 E6].
    apply String.eqb_neq in E3, E5, E6.
    split; [exact E4|]. do 3 (split; [assumption|]).
    split; [|reflexivity].
    apply andb_false_iff in E1 as [E1|E1]; [left|right]; apply String.eqb_neq; exact E1.
  - destruct (Extract.has_key a "go_to_url" || Extract.has_key a "navigate").
    + match goal with
      | |- context [if Extract.url_truthy ?u then _ else _] =>
          destruct (Extract.url_truthy u); intros H; injection H as <-;
          [right; right; exists (Extract.XNavigate u); split; [discriminate|];
           split; [discriminate | reflexivity] | left; reflexivity]
      end.
    + destruct (Extract.has_key a "wait").
      * match goal with
        | |- context [Extract.min2 ?x] => destruct (Extract.min2 x) as [s|e] eqn:M
        end; cbn [LoadFlow.bind]; intros H; [|discriminate].
        injection H as <-. right; right. exists (Extract.XWait s).
        split; [discriminate|]. split; [|reflexivity].
        intros j Hj. injection Hj as <-. exact (min2_not_above _ _ M).
      * destruct (Extract.has_key a "go_back"); intros H; injection H as <-;
          [right; right; exists Extract.XGoBack; split; [discriminate|];
           split; [discriminate | reflexivity] | left; reflexivity].
Qed.

Lemma NoDup_snoc {A} (l : list A) (x : A) :
  NoDup l -> ~ In x l -> NoDup (l ++ [x]).
Proof.
  intros Hl Hx. apply NoDup_app. split; [exact Hl|]. split; [|apply NoDup_singleton].
  intros y Hy Hy'. apply list_elem_of_singleton in Hy'. subst.
  apply Hx. apply list_elem_of_In. exact Hy.
Qed.

Lemma existsb_eqb_false (k : string) (l : list string) :
  existsb (String.eqb k) l = false -> ~ In k l.
Proof.
  intros H Hin.
  assert (existsb (String.eqb k) l = true) as Ht
    by (apply existsb_exists; exists k; split; [exact Hin | apply String.eqb_refl]).
  congruence.
Qed.

Lemma extract_go_inv urls i st actions st' :
  Extract.extract_go urls i st actions = LoadFlow.Ok st' ->
  NoDup (map Extract.dedup_key (Extract.clicks (snd st))) ->
  (forall k, In k (fst st) <-> In k (map Extract.dedup_key (Extract.clicks (snd st)))) ->
  NoDup (map Extract.dedup_key (Extract.clicks (snd st'))) /\
  (forall k, In k (fst st') <-> In k (map Extract.dedup_key (Extract.clicks (snd st')))) /\
  (forall c, In c (Extract.clicks (snd st')) -> In c (Extract.clicks (snd st)) \/
     (c_tag c <> "input"%string /\ c_tag c <> "textarea"%string /\
      c_tag c <> "select"%string /\
      (c_text c <> ""%string \/ c_purpose c <> "other"%string))) /\
  (forall j, In j (Extract.waits (snd st')) -> In j (Extract.waits (snd st)) \/
     Extract.two_lt j = LoadFlow.Ok false) /\
  (length (snd st') <= length (snd st) + length actions)%nat.
Proof.
  revert i st. induction actions as [|a rest IH]; intros i st H Hnd Hiff.
  - injection H as <-. split; [exact Hnd|]. split; [exact Hiff|].
    split; [intros c Hc; left; exact Hc|]. split; [intros j Hj; left; exact Hj|].
    cbn [length]. lia.
  - cbn [Extract.extract_go] in H.
    destruct (Extract.extract_step urls i st a) as [st1|e] eqn:E; cbn [LoadFlow.bind] in H;
      [|discriminate].
    apply extract_step_shape in E as [->|[(c & Hnew & Ht1 & Ht2 & Ht3 & Htx & ->)
                                        |(x & Hx & Hw & ->)]].
    + destruct (IH _ _ H Hnd Hiff) as (N & I & C & W & L).
      do 4 (split; [assumption|]). cbn [length]. lia.
    + cbn [fst snd] in *.
      assert (Hc : Extract.clicks (snd st ++ [Extract.XClick c]) =
                   Extract.clicks (snd st) ++ [c])
        by (unfold Extract.clicks; rewrite flat_map_app; reflexivity).
      assert (Hwt : Extract.waits (snd st ++ [Extract.XClick c]) = Extract.waits (snd st))
        by (unfold Extract.waits; rewrite flat_map_app; cbn; apply app_nil_r).
      assert (N0 : NoDup (map Extract.dedup_key
                            (Extract.clicks (snd st ++ [Extract.XClick c])))).
      { rewrite Hc, map_app. apply NoDup_snoc; [exact Hnd|].
        intros Hin. apply Hiff in Hin. exact (existsb_eqb_false _ _ Hnew Hin). }
      assert (I0 : forall k, In k (Extract.dedup_key c :: fst st) <->
                   In k (map Extract.dedup_key
                           (Extract.clicks (snd st ++ [Extract.XClick c])))).
      { intros k. rewrite Hc, map_app, in_app_iff. cbn [In map].
        rewrite (Hiff k). tauto. }
      destruct (IH (S i) _ H N0 I0) as (N & I & C & W & L); cbn [fst snd] in *.
      split; [exact N|]. split; [exact I|]. split; [|split].
        -- intros c' Hc'. destruct (C c' Hc') as [Hin|Hok]; [|right; exact Hok].
           rewrite Hc in Hin. apply in_app_iff in Hin as [Hin|[<-|[]]];
             [left; exact Hin | right; tauto].
        -- intros j Hj. rewrite <- Hwt. apply W. exact Hj.
        -- rewrite length_app in L. cbn [length] in *. lia.
    + cbn [fst snd] in *.
      assert (Hc : Extract.clicks (snd st ++ [x]) = Extract.clicks (snd st)).
      { unfold Extract.clicks. rewrite flat_map_app.
        destruct x; [exfalso; eapply Hx; reflexivity | ..]; cbn; apply app_nil_r. }
      assert (N0 : NoDup (map Extract.dedup_key (Extract.clicks (snd st ++ [x]))))
        by (rewrite Hc; exact Hnd).
      assert (I0 : forall k, In k (fst st) <->
                   In k (map Extract.dedup_key (Extract.clicks (snd st ++ [x]))))
        by (rewrite Hc; exact Hiff).
      destruct (IH (S i) (fst st, snd st ++ [x]) H N0 I0) as (N & I & C & W & L);
        cbn [fst snd] in *.
      split; [exact N|]. split; [exact I|]. split; [|split].
      * intros c' Hc'. rewrite <- Hc. apply C. exact Hc'.
      * intros j Hj. destruct (W j Hj) as [Hin|Hok]; [|right; exact Hok].
        unfold Extract.waits in Hin. rewrite flat_map_app, in_app_iff in Hin.
        destruct Hin as [Hin|Hin]; [left; exact Hin|right].
        destruct x; cbn in Hin; try tauto.
        destruct Hin as [<-|[]]. apply Hw. reflexivity.
      * rewrite length_app in L. cbn [length] in *. lia.
Qed.

Lemma extract_inv h steps :
  Extract.extract_navigation_steps h = LoadFlow.Ok steps ->
  NoDup (map Extract.dedup_key (Extract.clicks steps)) /\
  (forall c, In c (Extract.clicks steps) ->
     c_tag c <> "input"%string /\ c_tag c <> "textarea"%string /\
     c_tag c <> "select"%string /\
     (c_text c <> ""%string \/ c_purpose c <> "other"%string)) /\
  (forall j, In j (Extract.waits steps) -> Extract.two_lt j = LoadFlow.Ok false) /\
  (length steps <= match h with
                   | Extract.HistoryOk actions _ => length actions
                   | Extract.HistoryError => 0
                   end)%nat.
Proof.
  destruct h as [|actions urls]; cbn [Extract.extract_navigation_steps].
  - intros H. injection H as <-. repeat split; cbn; try constructor; tauto.
  - destruct (Extract.extract_go urls 0 ([], []) actions) as [st|e] eqn:E;
      cbn [LoadFlow.bind]; intros H; [|discriminate].
    injection H as <-.
    assert (N0 : NoDup (map Extract.dedup_key (Extract.clicks (snd ([] : list string,
                                                              [] : list Extract.XStep)))))
      by constructor.
    assert (I0 : forall k, In k (fst ([] : list string, [] : list Extract.XStep)) <->
                 In k (map Extract.dedup_key (Extract.clicks (snd ([] : list string,
                                                            [] : list Extract.XStep)))))
      by (cbn; tauto).
    destruct (extract_go_inv _ _ _ _ _ E N0 I0) as (N & _ & C & W & L).
    split; [exact N|]. split; [|split].
    + intros c Hc. destruct (C c Hc) as [[]|Hok]. exact Hok.
    + intros j Hj. destruct (W j Hj) as [[]|Hok]. exact Hok.
    + exact L.
Qed.

(** The click steps [extract_navigation_steps]
    returns have pairwise distinct keys [f"{selector}:{text[:20]}"]; a
    second click on the same element is dropped anywhere in the history,
    not only right after the first one. *)
Theorem extract_click_keys_distinct (h : Extract.History) (steps : list Extract.XStep)
    (H : Extract.extract_navigation_steps h = LoadFlow.Ok steps) :
  NoDup (map Extract.dedup_key (Extract.clicks steps)).
Proof. exact (proj1 (extract_inv h steps H)). Qed.

Lemma extract_click_keys_distinct_witness :
  Extract.extract_navigation_steps sample_history =
    LoadFlow.Ok (match Extract.extract_navigation_steps sample_history with
                 | LoadFlow.Ok s => s | LoadFlow.Raise _ => [] end) /\
  NoDup (map Extract.dedup_key (Extract.clicks
    (match Extract.extract_navigation_steps sample_history with
     | LoadFlow.Ok s => s | LoadFlow.Raise _ => [] end))).
Proof.
  split; [vm_compute; reflexivity|].
  apply (extract_click_keys_distinct sample_history). vm_compute. reflexivity.
Defined.

(** No wait step of the result waits longer than two seconds: for its
    [seconds] value [s], [2 < s] is [False]. *)
Theorem extract_wait_capped (h : Extract.History) (steps : list Extract.XStep)
    (H : Extract.extract_navigation_steps h = LoadFlow.Ok steps) (s : LoadFlow.Json)
    (Hin : In s (Extract.waits steps)) :
  Extract.two_lt s = LoadFlow.Ok false.
Proof. exact (proj1 (proj2 (proj2 (extract_inv h steps H))) s Hin). Qed.

Lemma extract_wait_capped_witness :
  Extract.extract_navigation_steps sample_history =
    LoadFlow.Ok [Extract.XClick
                   (mkClickStep "click" "Accept all" (Some "#consent") "button"
                      (Some "https://shop.nl/p") "cookie_consent" None None);
                 Extract.XWait (LoadFlow.JInt 2);
                 Extract.XNavigate (Extract.UrlValue (LoadFlow.JStr "https://shop.nl/cart"))] /\
  Extract.two_lt (LoadFlow.JInt 2) = LoadFlow.Ok false.
Proof.
  split; [vm_compute; reflexivity|].
  apply (extract_wait_capped sample_history
           [Extract.XClick
              (mkClickStep "click" "Accept all" (Some "#consent") "button"
                 (Some "https://shop.nl/p") "cookie_consent" None None);
            Extract.XWait (LoadFlow.JInt 2);
            Extract.XNavigate (Extract.UrlValue (LoadFlow.JStr "https://shop.nl/cart"))]).
  - vm_compute. reflexivity.
  - cbn. tauto.
Defined.

(** No click step of the result is a click into a form control
    ([input], [textarea], [select]), and none has both an empty text and
    the purpose [other]. *)
Theorem extract_clicks_filtered (h : Extract.History) (steps : list Extract.XStep)
    (H : Extract.extract_navigation_steps h = LoadFlow.Ok steps) (c : ClickStep)
    (Hin : In c (Extract.clicks steps)) :
  c_tag c <> "input"%string /\ c_tag c <> "textarea"%string /\
  c_tag c <> "select"%string /\
  ~ (c_text c = ""%string /\ c_purpose c = "other"%string).
Proof.
  destruct (proj1 (proj2 (extract_inv h steps H)) c Hin) as (T1 & T2 & T3 & T4).
  split; [exact T1|]. split; [exact T2|]. split; [exact T3|].
  intros [E1 E2]. destruct T4 as [T4|T4]; contradiction.
Qed.

Lemma extract_clicks_filtered_witness :
  Extract.extract_navigation_steps sample_history =
    LoadFlow.Ok [Extract.XClick
                   (mkClickStep "click" "Accept all" (Some "#consent") "button"
                      (Some "https://shop.nl/p") "cookie_consent" None None);
                 Extract.XWait (LoadFlow.JInt 2);
                 Extract.XNavigate (Extract.UrlValue (LoadFlow.JStr "https://shop.nl/cart"))] /\
  c_tag (mkClickStep "click" "Accept all" (Some "#consent") "button"
           (Some "https://shop.nl/p") "cookie_consent" None None) <> "input"%string.
Proof.
  split; [vm_compute; reflexivity|].
  refine (proj1 (extract_clicks_filtered sample_history
           [Extract.XClick
              (mkClickStep "click" "Accept all" (Some "#consent") "button"
                 (Some "https://shop.nl/p") "cookie_consent" None None);
            Extract.XWait (LoadFlow.JInt 2);
            Extract.XNavigate (Extract.UrlValue (LoadFlow.JStr "https://shop.nl/cart"))]
           _ _ _)).
  - vm_compute. reflexivity.
  - cbn. left. reflexivity.
Defined.

(** Every action gives at most one step, and a history whose actions
    cannot be read gives none. *)
Theorem extract_at_most_one_step_per_action (h : Extract.History)
    (steps : list Extract.XStep)
    (H : Extract.extract_navigation_steps h = LoadFlow.Ok steps) :
  (length steps <= match h with
                   | Extract.HistoryOk actions _ => length actions
                   | Extract.HistoryError => 0
                   end)%nat.
Proof. exact (proj2 (proj2 (proj2 (extract_inv h steps H)))). Qed.

Lemma extract_at_most_one_step_per_action_witness :
  Extract.extract_navigation_steps sample_history =
    LoadFlow.Ok [Extract.XClick
         (mkClickStep "click" "Accept all" (Some "#consent") "button"
            (Some "https://shop.nl/p") "cookie_consent" None None);
       Extract.XWait (LoadFlow.JInt 2);
       Extract.XNavigate (Extract.UrlValue (LoadFlow.JStr "https://shop.nl/cart"))] /\
  (length ([Extract.XClick
          (mkClickStep "click" "Accept all" (Some "#consent") "button"
             (Some "https://shop.nl/p") "cookie_consent" None None);
        Extract.XWait (LoadFlow.JInt 2);
        Extract.XNavigate (Extract.UrlValue (LoadFlow.JStr "https://shop.nl/cart"))]) <= 5)%nat.
Proof.
  split; [vm_compute; reflexivity|].
  exact (extract_at_most_one_step_per_action sample_history
    [Extract.XClick
           (mkClickStep "click" "Accept all" (Some "#consent") "button"
              (Some "https://shop.nl/p") "cookie_consent" None None);
         Extract.XWait (LoadFlow.JInt 2);
         Extract.XNavigate (Extract.UrlValue (LoadFlow.JStr "https://shop.nl/cart"))]
    ltac:(vm_compute; reflexivity)).
Defined.

Lemma extract_go_app urls i st l1 l2 :
  Extract.extract_go urls i st (l1 ++ l2) =
  LoadFlow.bind (Extract.extract_go urls i st l1)
    (fun st' => Extract.extract_go urls (i + length l1)%nat st' l2).
Proof.
  revert i st. induction l1 as [|a l1 IH]; intros i st; cbn [app Extract.extract_go length].
  - cbn [LoadFlow.bind]. rewrite Nat.add_0_r. reflexivity.
  - destruct (Extract.extract_step urls i st a); cbn [LoadFlow.bind]; [|reflexivity].
    rewrite IH. replace (i + S (length l1))%nat with (S i + length l1)%nat by lia.
    reflexivity.
Qed.

(** A wait action whose [seconds] is not a number ([None], a string, a
    list or a dict) makes [min(seconds, 2)] raise [TypeError], and the
    exception escapes [extract_navigation_steps], whatever follows. *)
Theorem extract_wait_type_error urls prefix rest (v : LoadFlow.Json) st
    (Hpre : Extract.extract_go urls 0 ([], []) prefix = LoadFlow.Ok st)
    (Hv : match v with
          | LoadFlow.JBool _ | LoadFlow.JInt _ | LoadFlow.JFloat _ => False
          | _ => True
          end) :
  Extract.extract_navigation_steps
    (Extract.HistoryOk (prefix ++ Extract.wait_action v :: rest) urls) =
  LoadFlow.Raise LoadFlow.TypeError.
Proof.
  cbn [Extract.extract_navigation_steps]. rewrite extract_go_app, Hpre.
  cbn [LoadFlow.bind Extract.extract_go]. destruct st as [seen steps].
  destruct v; try contradiction; reflexivity.
Qed.

Lemma extract_wait_type_error_witness :
  Extract.extract_go [] 0 ([], []) [] = LoadFlow.Ok ([], []) /\
  Extract.extract_navigation_steps
    (Extract.HistoryOk ([] ++ Extract.wait_action LoadFlow.JNull :: []) []) =
  LoadFlow.Raise LoadFlow.TypeError.
Proof.
  split; [reflexivity|].
  apply (extract_wait_type_error [] [] [] LoadFlow.JNull ([], [])); [reflexivity | exact I].
Defined.

(** ** Country names *)

Lemma assoc_get_in (k v : string) (kvs : list (string * string)) :
  assoc_get k kvs = Some v -> In v (map snd kvs).
Proof.
  induction kvs as [|[k' v'] r IH]; cbn [assoc_get map snd In]; [discriminate|].
  destruct (String.eqb k k'); [intros H; injection H as ->; left; reflexivity|].
  intros H; right; exact (IH H).
Qed.

Lemma country_name_of_names :
  forallb (fun v => String.eqb (country_name v) v) (map snd COUNTRY_MAP) = true.
Proof. vm_compute. reflexivity. Qed.

Lemma country_name_cases (code : string) :
  country_name code = code \/ In (country_name code) (map snd COUNTRY_MAP).
Proof.
  unfold country_name.
  destruct (PyStr.upper code) as [u|]; [|left; reflexivity].
  destruct (assoc_get u COUNTRY_MAP) as [v|] eqn:E; cbn [default from_option id];
    [right; exact (assoc_get_in _ _ _ E) | left; reflexivity].
Qed.

(** [country_name] leaves a country name it produced unchanged: applying
    it to its own result gives that result again (no name of the map is
    itself a code of the map, after [upper()]). *)
Theorem country_name_idempotent (code : string) :
  country_name (country_name code) = country_name code.
Proof.
  destruct (country_name_cases code) as [E|Hin]; [rewrite E; exact E|].
  pose proof country_name_of_names as Hall.
  rewrite forallb_forall in Hall. apply String.eqb_eq. exact (Hall _ Hin).
Qed.

(** ** From discovery to the next run's field lists *)

Lemma map_truthy_lookup (m : gmap string string) k v :
  m !! k = Some v -> map_truthy m = true.
Proof.
  intros H. unfold map_truthy. rewrite bool_decide_false; [reflexivity|].
  intros ->. rewrite lookup_empty in H. discriminate.
Qed.

Lemma map_truthy_union_l (m1 m2 : gmap string string) :
  map_truthy m1 = true -> map_truthy (m1 ∪ m2) = true.
Proof.
  unfold map_truthy. intros H. apply negb_true_iff, bool_decide_eq_false in H.
  apply negb_true_iff, bool_decide_eq_false. intros E. apply H.
  exact (map_positive_l _ _ E).
Qed.

Lemma discover_shape chk dir url final ff fp scan nav now dir' df dp
    (H : _discover_and_save chk dir url final ff fp scan nav now = Some (dir', (df, dp))) :
  exists sf sp plat,
    match scan with
    | ScanFailed => sf = ∅ /\ sp = ∅ /\ plat = "unknown"%string
    | ScanNoPlatform f p => sf = f /\ sp = p /\ plat = "unknown"%string
    | Scanned f p pl => sf = f /\ sp = p /\ plat = pl
    end /\
    df = ff ∪ sf /\ dp = fp ∪ sp /\
    ((map_truthy df || map_truthy dp || match nav with [] => false | _ => true end) = true ->
       exists pat, dir' = save_flow dir url df (Some dp) (Some nav) pat (Some plat) final now) /\
    ((map_truthy df || map_truthy dp || match nav with [] => false | _ => true end) = false ->
       dir' = dir).
Proof.
  unfold _discover_and_save in H.
  destruct scan as [|f p|f p pl]; cbv beta iota zeta in H;
    [exists ∅, ∅, "unknown"%string | exists f, p, "unknown"%string | exists f, p, pl];
    (split; [repeat split|]);
    match type of H with
    | match ?pat with None => _ | Some _ => _ end = _ =>
        destruct pat as [cup|]; [|discriminate]
    end;
    match type of H with
    | (if ?b then _ else _) = _ => destruct b eqn:T
    end;
    injection H as <- <- <-;
    (split; [reflexivity|]); (split; [reflexivity|]);
    split; intros HT; first [congruence | exists cup; reflexivity].
Qed.

Lemma discover_saved_flow chk dir url final ff fp scan nav now dir' found
    (H : _discover_and_save chk dir url final ff fp scan nav now = Some (dir', found))
    (Hff : map_truthy ff = true) :
  exists pat plat,
    stored_flow dir' url =
    stored_flow (save_flow dir url (fst found) (Some (snd found)) (Some nav) pat
                   (Some plat) final now) url.
Proof.
  destruct found as [df dp].
  destruct (discover_shape _ _ _ _ _ _ _ _ _ _ _ _ H)
    as (sf & sp & plat & _ & Edf & Edp & Hsave & _).
  destruct Hsave as [pat ->].
  - rewrite Edf, (map_truthy_union_l _ _ Hff). reflexivity.
  - exists pat, plat. reflexivity.
Qed.

Lemma form_field_head (m : gmap string string) name sel
    email first_name last_name street city state zip_code country_code c_name phone
    (Hname : In name ["email"; "country"; "first_name"; "last_name"; "address";
                      "city"; "state"; "zip_code"; "phone"]%string)
    (Hm : m !! name = Some sel) :
  option_map (fun f => hd_error (ff_selectors f))
    (List.find (fun f => String.eqb (ff_name f) name)
       (build_field_list email first_name last_name street city state zip_code
          country_code c_name phone (Some m))) = Some (Some sel).
Proof.
  repeat destruct Hname as [<- | Hname]; try contradiction;
    unfold build_field_list, sels; cbn [default from_option id]; rewrite Hm; reflexivity.
Qed.

(** A selector the form tool reported as working for a shipping field
    is, after [_discover_and_save], the first selector the next run's
    [build_field_list] tries for that field, unless the request brings
    its own selector for it. *)
Theorem form_selector_round_trip chk dir url final ff fp scan nav now dir' found
    name sel req_form req_pay
    email first_name last_name street city state zip_code country_code c_name phone
    (H : _discover_and_save chk dir url final ff fp scan nav now = Some (dir', found))
    (Hsel : ff !! name = Some sel)
    (Hreq : default ∅ req_form !! name = None)
    (Hname : In name ["email"; "country"; "first_name"; "last_name"; "address";
                      "city"; "state"; "zip_code"; "phone"]%string) :
  option_map (fun f => hd_error (ff_selectors f))
    (List.find (fun f => String.eqb (ff_name f) name)
       (build_field_list email first_name last_name street city state zip_code
          country_code c_name phone
          (Some (plan_form (checkout_plan (stored_flow dir' url) req_form req_pay))))) =
  Some (Some sel).
Proof.
  apply form_field_head; [exact Hname|].
  destruct (discover_saved_flow _ _ _ _ _ _ _ _ _ _ _ H (map_truthy_lookup _ _ _ Hsel))
    as (pat & plat & ->).
  destruct found as [df dp].
  destruct (discover_shape _ _ _ _ _ _ _ _ _ _ _ _ H) as (sf & sp & _ & _ & Edf & _).
  unfold stored_flow. rewrite save_flow_lookup. cbn zeta.
  unfold checkout_plan. cbn [flow_truthy fst snd].
  destruct (h_needs_relearn _); cbn [plan_form];
    rewrite lookup_union_r by exact Hreq; cbn [default from_option id];
    apply lookup_union_Some_l; rewrite Edf; apply lookup_union_Some_l; exact Hsel.
Qed.

Lemma form_selector_round_trip_witness :
  _discover_and_save (fun _ => true) ∅ "https://shop.nl/p" None
    (<["email" := "#mail"]> ∅) ∅ ScanFailed [] "t0" =
  Some (match _discover_and_save (fun _ => true) ∅ "https://shop.nl/p" None
                (<["email" := "#mail"]> ∅) ∅ ScanFailed [] "t0" with
        | Some r => r | None => (∅, (∅, ∅)) end) /\
  option_map (fun f => hd_error (ff_selectors f))
    (List.find (fun f => String.eqb (ff_name f) "email")
       (build_field_list "a@b.nl" "A" "B" "S 1" "C" "" "1000AA" "NL" "Netherlands" "06"
          (Some (plan_form (checkout_plan
             (stored_flow (fst (match _discover_and_save (fun _ => true) ∅ "https://shop.nl/p"
                                       None (<["email" := "#mail"]> ∅) ∅ ScanFailed [] "t0" with
                                | Some r => r | None => (∅, (∅, ∅)) end))
                "https://shop.nl/p") None None))))) =
  Some (Some "#mail"%string).
Proof.
  split; [vm_compute; reflexivity|].
  eapply (form_selector_round_trip (fun _ => true) ∅ "https://shop.nl/p" None
            (<["email" := "#mail"]> ∅) ∅ ScanFailed [] "t0" _
            (snd (match _discover_and_save (fun _ => true) ∅ "https://shop.nl/p" None
                         (<["email" := "#mail"]> ∅) ∅ ScanFailed [] "t0" with
                  | Some r => r | None => (∅, (∅, ∅)) end))).
  - vm_compute. reflexivity.
  - vm_compute. reflexivity.
  - vm_compute. reflexivity.
  - cbn. left. reflexivity.
Defined.

(** [FORM_FILL_JS] reports each filled field's selector under the
    field's [name]. For the payment fields other than [card_number] that
    name ([expiry], [cvv], [cardholder]) is not the key that
    [build_payment_field_list] reads ([card_expiry], [card_cvv],
    [card_name]): a selector saved under it never changes the next
    payment field list. *)
Theorem payment_tool_selectors_unused card_number card_exp card_cvv card_name
    (m : gmap string string) (k sel : string)
    (Hk : In k (map pf_name (build_payment_field_list card_number card_exp card_cvv
                                card_name None)))
    (Hk2 : k <> "card_number"%string) :
  build_payment_field_list card_number card_exp card_cvv card_name (Some (<[k := sel]> m)) =
  build_payment_field_list card_number card_exp card_cvv card_name (Some m).
Proof.
  cbn in Hk. repeat destruct Hk as [<- | Hk]; try contradiction;
    unfold build_payment_field_list, sels; cbn [default from_option id];
    rewrite !lookup_insert_ne by discriminate; reflexivity.
Qed.

Lemma payment_tool_selectors_unused_witness :
  In "expiry"%string (map pf_name (build_payment_field_list "4111" "12/30" "123" "A B" None)) /\
  "expiry"%string <> "card_number"%string /\
  build_payment_field_list "4111" "12/30" "123" "A B" (Some (<["expiry" := "#exp"]> ∅)) =
  build_payment_field_list "4111" "12/30" "123" "A B" (Some ∅).
Proof.
  split; [cbn; right; left; reflexivity|]. split; [discriminate|].
  apply payment_tool_selectors_unused; [cbn; right; left; reflexivity | discriminate].
Defined.

Lemma detectFieldType_known a n i t ft :
  detectFieldType a n i t = Some ft -> In ft (map fst FIELD_PATTERNS).
Proof.
  unfold detectFieldType. cbv zeta.
  match goal with |- context [List.find ?p FIELD_PATTERNS] =>
    destruct (List.find p FIELD_PATTERNS) as [fp|] eqn:E end; [|discriminate].
  intros Hft. injection Hft as <-. apply in_map. exact (proj1 (find_some _ _ E)).
Qed.

(** Every field type [detectFieldType] can report is read back by the
    next run: a selector stored under it is the first selector of a
    field of [build_payment_field_list] when it is a payment field, and
    of the field of the same name of [build_field_list] otherwise. *)
Theorem detected_field_type_used a n i t ft (m : gmap string string) sel
    email first_name last_name street city state zip_code country_code c_name phone
    card_number card_exp card_cvv card_name
    (Hft : detectFieldType a n i t = Some ft)
    (Hm : m !! ft = Some sel) :
  if is_payment_field ft then
    List.Exists (fun f => hd_error (pf_selectors f) = Some sel)
      (build_payment_field_list card_number card_exp card_cvv card_name (Some m))
  else
    List.Exists (fun f => ff_name f = ft /\ hd_error (ff_selectors f) = Some sel)
      (build_field_list email first_name last_name street city state zip_code
         country_code c_name phone (Some m)).
Proof.
  apply detectFieldType_known in Hft. cbn in Hft.
  repeat destruct Hft as [<- | Hft]; try contradiction;
    unfold build_payment_field_list, build_field_list, sels;
    cbn [is_payment_field PAYMENT_FIELDS existsb String.eqb default from_option id orb];
    rewrite Hm;
    repeat first [ apply Exists_cons_hd; split; reflexivity
                 | apply Exists_cons_hd; reflexivity
                 | apply Exists_cons_tl ].
Qed.

Lemma detected_field_type_used_witness :
  detectFieldType (Some "cc-exp") None None None = Some "card_expiry"%string /\
  List.Exists (fun f => hd_error (pf_selectors f) = Some "#exp"%string)
    (build_payment_field_list "4111" "12/30" "123" "A B" (Some (<["card_expiry" := "#exp"]> ∅))).
Proof.
  split; [vm_compute; reflexivity|].
  exact (detected_field_type_used (Some "cc-exp") None None None "card_expiry"
           (<["card_expiry" := "#exp"]> ∅) "#exp"
           "" "" "" "" "" "" "" "" "" "" "4111" "12/30" "123" "A B"
           ltac:(vm_compute; reflexivity) ltac:(vm_compute; reflexivity)).
Defined.

(** When neither the tools nor the page scan found a selector and no
    navigation step was learned, [_discover_and_save] leaves the store as
    it was (or raises, when [urlparse] rejects the final URL). *)
Theorem discover_nothing_keeps_store chk dir url final scan now
    (Hscan : match scan with
             | ScanFailed => True
             | ScanNoPlatform f p | Scanned f p _ => f = ∅ /\ p = ∅
             end) :
  _discover_and_save chk dir url final ∅ ∅ scan [] now = None \/
  _discover_and_save chk dir url final ∅ ∅ scan [] now = Some (dir, (∅, ∅)).
Proof.
  destruct (_discover_and_save chk dir url final ∅ ∅ scan [] now)
    as [[dir' [df dp]]|] eqn:H; [right|left; reflexivity].
  destruct (discover_shape _ _ _ _ _ _ _ _ _ _ _ _ H)
    as (sf & sp & plat & Hs & Edf & Edp & _ & Hkeep).
  assert (sf = ∅ /\ sp = ∅) as [-> ->]
    by (destruct scan; [tauto | destruct Hs as (-> & -> & _); exact Hscan
                               | destruct Hs as (-> & -> & _); exact Hscan]).
  rewrite map_empty_union in Edf, Edp. subst df dp.
  rewrite Hkeep by reflexivity. reflexivity.
Qed.

Lemma discover_nothing_keeps_store_witness :
  True /\
  (_discover_and_save (fun _ => true) ∅ "https://shop.nl/p" (Some "https://shop.nl/checkout/1")
     ∅ ∅ ScanFailed [] "t0" = None \/
   _discover_and_save (fun _ => true) ∅ "https://shop.nl/p" (Some "https://shop.nl/checkout/1")
     ∅ ∅ ScanFailed [] "t0" = Some (∅, (∅, ∅))).
Proof.
  split; [exact I|].
  apply (discover_nothing_keeps_store (fun _ => true) ∅ "https://shop.nl/p"
           (Some "https://shop.nl/checkout/1") ScanFailed "t0").
  exact I.
Defined.

(** Once the form tool reported a selector, [_discover_and_save] saves
    the flow with exactly the navigation steps it was given: an empty
    list erases the steps saved before, and the run counts as a success
    (no consecutive failure). *)
Theorem discover_overwrites_steps chk dir url final ff fp scan nav now dir' found
    (H : _discover_and_save chk dir url final ff fp scan nav now = Some (dir', found))
    (Hff : map_truthy ff = true) :
  exists flow, stored_flow dir' url = Some flow /\
    navigation_steps flow = Some nav /\ consecutive_failures flow = Some 0%Z.
Proof.
  destruct (discover_saved_flow _ _ _ _ _ _ _ _ _ _ _ H Hff) as (pat & plat & ->).
  unfold stored_flow. rewrite save_flow_lookup. cbn zeta.
  eexists. split; [reflexivity|]. split; reflexivity.
Qed.

Lemma discover_overwrites_steps_witness :
  _discover_and_save (fun _ => true) (save_flow ∅ "shop.nl" ∅ None (Some [mkNavStep (Some "click") (Some "Checkout") (Some "#co") (Some "checkout") None])
                                        None None None "t0")
    "https://shop.nl/p" None (<["email" := "#mail"]> ∅) ∅ ScanFailed [] "t1" =
  Some (match _discover_and_save (fun _ => true)
                (save_flow ∅ "shop.nl" ∅ None (Some [mkNavStep (Some "click") (Some "Checkout") (Some "#co") (Some "checkout") None]) None None None "t0")
                "https://shop.nl/p" None (<["email" := "#mail"]> ∅) ∅ ScanFailed [] "t1" with
        | Some r => r | None => (∅, (∅, ∅)) end) /\
  map_truthy (<["email" := "#mail"]> ∅) = true /\
  exists flow,
    stored_flow (fst (match _discover_and_save (fun _ => true)
                (save_flow ∅ "shop.nl" ∅ None (Some [mkNavStep (Some "click") (Some "Checkout") (Some "#co") (Some "checkout") None]) None None None "t0")
                "https://shop.nl/p" None (<["email" := "#mail"]> ∅) ∅ ScanFailed [] "t1" with
        | Some r => r | None => (∅, (∅, ∅)) end)) "https://shop.nl/p" = Some flow /\
    navigation_steps flow = Some [] /\ consecutive_failures flow = Some 0%Z.
Proof.
  split; [vm_compute; reflexivity|]. split; [vm_compute; reflexivity|].
  eapply (discover_overwrites_steps (fun _ => true)
           (save_flow ∅ "shop.nl" ∅ None
              (Some [mkNavStep (Some "click") (Some "Checkout") (Some "#co") (Some "checkout") None])
              None None None "t0")
           "https://shop.nl/p" None (<["email" := "#mail"]> ∅) ∅ ScanFailed [] "t1" _
           (snd (match _discover_and_save (fun _ => true)
                         (save_flow ∅ "shop.nl" ∅ None
                            (Some [mkNavStep (Some "click") (Some "Checkout") (Some "#co")
                                     (Some "checkout") None])
                            None None None "t0")
                         "https://shop.nl/p" None (<["email" := "#mail"]> ∅) ∅ ScanFailed [] "t1" with
                 | Some r => r | None => (∅, (∅, ∅)) end)));
    vm_compute; reflexivity.
Defined.

(** ** [urlparse] raises only on square brackets *)

Lemma contains_char_lstrip c p s :
  Py.contains_char c (Py.lstrip p s) = true -> Py.contains_char c s = true.
Proof.
  induction s as [|c' r IH]; cbn [Py.lstrip Py.contains_char]; [discriminate|].
  destruct (p c'); cbn [Py.contains_char]; intros H; [rewrite IH by exact H|exact H].
  apply orb_true_r.
Qed.

Lemma contains_char_remove c p s :
  Py.contains_char c (Py.remove_chars p s) = true -> Py.contains_char c s = true.
Proof.
  induction s as [|c' r IH]; cbn [Py.remove_chars Py.contains_char]; [discriminate|].
  destruct (p c'); cbn [Py.contains_char]; intros H.
  - rewrite IH by exact H. apply orb_true_r.
  - apply orb_true_iff in H as [H|H]; [rewrite H; reflexivity|].
    rewrite IH by exact H. apply orb_true_r.
Qed.

Lemma contains_char_drop c n s :
  Py.contains_char c (Py.drop n s) = true -> Py.contains_char c s = true.
Proof.
  revert n. induction s as [|c' r IH]; intros [|n]; cbn [Py.drop Py.contains_char];
    try discriminate; intros H; [exact H|].
  rewrite (IH n H). apply orb_true_r.
Qed.

Lemma contains_char_netloc_prefix c s :
  Py.contains_char c (UrlParse.netloc_prefix s) = true -> Py.contains_char c s = true.
Proof.
  induction s as [|c' r IH]; cbn [UrlParse.netloc_prefix Py.contains_char]; [discriminate|].
  destruct (UrlParse.is_netloc_delim c'); cbn [Py.contains_char]; [discriminate|].
  intros H. apply orb_true_iff in H as [H|H]; [rewrite H; reflexivity|].
  rewrite IH by exact H. apply orb_true_r.
Qed.

Lemma contains_char_split_scheme c u :
  Py.contains_char c (snd (split_scheme u)) = true -> Py.contains_char c u = true.
Proof.
  unfold split_scheme.
  destruct (Py.find ":" u) as [i|]; [|cbn [snd]; tauto].
  destruct u as [|c0 r]; [cbn [snd]; tauto|].
  destruct (_ && _ && _); cbn [snd]; [apply contains_char_drop | tauto].
Qed.

Lemma urlparse_path_no_brackets chk url0
    (H1 : Py.contains_char "[" url0 = false) (H2 : Py.contains_char "]" url0 = false) :
  urlparse_path chk url0 <> None.
Proof.
  assert (Hsub : forall c s, Py.contains_char c url0 = false ->
                   (Py.contains_char c s = true -> Py.contains_char c url0 = true) ->
                   Py.contains_char c s = false)
    by (intros c s Hc Himp; destruct (Py.contains_char c s); [|reflexivity];
        rewrite Himp in Hc by reflexivity; exact Hc).
  unfold urlparse_path.
  destruct (split_scheme _) as [scheme url2] eqn:Esp. cbv beta iota zeta.
  assert (Hu2 : forall c, Py.contains_char c url2 = true -> Py.contains_char c url0 = true).
  { intros c Hc. apply contains_char_lstrip with (p := UrlParse.is_c0_control_or_space).
    apply contains_char_remove with (p := UrlParse.is_unsafe_url_byte).
    apply contains_char_split_scheme. rewrite Esp. exact Hc. }
  destruct (Py.startswith "//" url2).
  - rewrite (Hsub "["%char _ H1), (Hsub "]"%char _ H2)
      by (intros Hc; apply Hu2, contains_char_drop with (n := 2%nat),
                     contains_char_netloc_prefix; exact Hc).
    cbn [andb orb negb].
    destruct (_ && Py.contains_char ";" _); discriminate.
  - destruct (_ && Py.contains_char ";" _); discriminate.
Qed.

(** [urlparse] raises [ValueError] only on a square bracket: a final URL
    with neither [[] nor []] never makes [_discover_and_save] fail, so
    what it discovered is always returned. *)
Theorem discover_no_brackets_no_error chk dir url final ff fp scan nav now
    (H1 : Py.contains_char "[" (default "" final) = false)
    (H2 : Py.contains_char "]" (default "" final) = false) :
  exists dir', _discover_and_save chk dir url final ff fp scan nav now =
               Some (dir', (ff ∪ match scan with
                                 | ScanFailed => ∅
                                 | ScanNoPlatform f _ | Scanned f _ _ => f
                                 end,
                            fp ∪ match scan with
                                 | ScanFailed => ∅
                                 | ScanNoPlatform _ p | Scanned _ p _ => p
                                 end)).
Proof.
  unfold _discover_and_save.
  destruct scan as [|f p|f p pl]; cbv beta iota zeta;
    (destruct (PyStr.truthy final);
     [destruct (urlparse_path chk (default "" final)) as [path|] eqn:U;
      [|exfalso; exact (urlparse_path_no_brackets chk _ H1 H2 U)]|]);
    (destruct (_ || _ || _); eexists; reflexivity).
Qed.

Lemma discover_no_brackets_no_error_witness :
  Py.contains_char "[" (default "" (Some "https://shop.nl/checkout/1")) = false /\
  Py.contains_char "]" (default "" (Some "https://shop.nl/checkout/1")) = false /\
  exists dir', _discover_and_save (fun _ => false) ∅ "https://shop.nl/p"
                 (Some "https://shop.nl/checkout/1") (<["email" := "#mail"]> ∅) ∅
                 ScanFailed [] "t0" =
               Some (dir', (<["email" := "#mail"]> ∅ ∪ ∅, ∅ ∪ ∅)).
Proof.
  split; [reflexivity|]. split; [reflexivity|].
  exact (discover_no_brackets_no_error (fun _ => false) ∅ "https://shop.nl/p"
           (Some "https://shop.nl/checkout/1") (<["email" := "#mail"]> ∅) ∅
           ScanFailed [] "t0" eq_refl eq_refl).
Defined.
